(** * The pinning-maps lesson: the XDP loader and the XDP stats reporter

    A shallow embedding of the two user-space programs of
    [basic04-pinning-maps]: [xdp_stats.c] (the statistics reporter and its
    poll loop) and the loader (attach with reuse of a pinned map).

    Both programs are sequential C code whose interesting behaviour is the
    order of their calls into the kernel, libbpf and libxdp and what they do
    with the results.  The embedding therefore runs every function in a small
    monad that threads an abstract world, records each external call and each
    line written to stdout or stderr in a trace, and can stop the process
    ([exit]).  The world (the kernel, the bpf file system, the clock) is an
    interface: a type class whose operations give the result of each call. *)

From Stdlib Require Import ZArith Lia.
From stdpp Require Import base list strings.

Local Open Scope Z_scope.

(** ** Machine integers *)

(** [__u64] arithmetic wraps modulo [2^64]; [unsigned int] modulo [2^32]. *)
Definition u64 (z : Z) : Z := z mod 2 ^ 64.
Definition u32 (z : Z) : Z := z mod 2 ^ 32.

(** ** Traces *)

(** A [double] is kept as the expression that computes it: the conversion
    of an integer, and the quotient of two doubles. The expression is not
    evaluated, so no rounding is modelled and no value of a double is
    claimed; what the programs need of a double is its comparison with
    zero. *)
Inductive double : Type :=
| D_of_int (z : Z)
| D_div (a b : double).

(** [d == 0]. A converted integer is zero when the integer is. A quotient
    is zero when its numerator is zero and its divisor is not (0/0 is a NaN,
    which does not compare equal to 0). A quotient of non-zero doubles that
    underflows is not modelled: the one quotient that the reporter compares
    with zero is a non-zero 64-bit integer divided by 10^9. *)
Fixpoint d_is_zero (d : double) : bool :=
  match d with
  | D_of_int z => z =? 0
  | D_div a b => d_is_zero a && negb (d_is_zero b)
  end.

(** An argument of a call or of a [printf]. *)
Inductive arg : Type :=
| AInt (z : Z)
| AStr (s : string)
| AReal (d : double).

(** What the process does that the outside can see: a call of an external
    function with the values passed (or returned through pointers) and its
    return value, and the [printf]/[fprintf(stderr, ...)] lines with their
    format string as in the source. *)
Inductive event : Type :=
| Call (fn : string) (args : list arg) (ret : Z)
| Stdout (fmt : string) (args : list arg)
| Stderr (fmt : string) (args : list arg).

(** ** The monad of the programs *)

(** How a computation ends: with a value, with [exit(code)], with a
    division of a [double] by zero, or with a variable-length array that
    the stack cannot hold. *)
Inductive res (A : Type) : Type :=
| Ret (a : A)
| Exit (code : Z)
| DivByZero
| StackOverflow.
Arguments Ret {A} a.
Arguments Exit {A} code.
Arguments DivByZero {A}.
Arguments StackOverflow {A}.

Definition M (W A : Type) : Type := W -> W * list event * res A.

Definition ret {W A} (a : A) : M W A := fun w => (w, [], Ret a).

Definition bind {W A B} (m : M W A) (k : A -> M W B) : M W B := fun w =>
  let '(w1, t1, r) := m w in
  match r with
  | Ret a => let '(w2, t2, r2) := k a w1 in (w2, t1 ++ t2, r2)
  | Exit c => (w1, t1, Exit c)
  | DivByZero => (w1, t1, DivByZero)
  | StackOverflow => (w1, t1, StackOverflow)
  end.

Notation "x <- m ;; k" := (bind m (fun x => k))
  (at level 100, m at next level, right associativity).
Notation "m ;;; k" := (bind m (fun _ => k))
  (at level 100, right associativity).

Definition emit {W} (e : event) : M W unit := fun w => (w, [e], Ret tt).
Definition printf {W} (fmt : string) (args : list arg) : M W unit :=
  emit (Stdout fmt args).
Definition fprintf_stderr {W} (fmt : string) (args : list arg) : M W unit :=
  emit (Stderr fmt args).
Definition exit {W A} (code : Z) : M W A := fun w => (w, [], Exit code).

(** Division of two [double]s; the zero divisor is made an outcome of its
    own so that a guard in front of a division can be stated. *)
Definition fdiv {W} (a b : double) : M W double := fun w =>
  if d_is_zero b then (w, [], DivByZero) else (w, [], Ret (D_div a b)).

(** A call whose result the world decides; the event keeps the values. *)
Definition call {W A} (op : W -> W * A) (ev : A -> event) : M W A := fun w =>
  let '(w1, a) := op w in (w1, [ev a], Ret a).

Definition trace_of {W A} (x : W * list event * res A) : list event := snd (fst x).
Definition result_of {W A} (x : W * list event * res A) : res A := snd x.
Definition world_of {W A} (x : W * list event * res A) : W := fst (fst x).

(** ** Data of the programs *)

(** [struct datarec] of common_kern_user.h, through the two fields the code
    reads. *)
Record datarec : Type := { rx_packets : Z; rx_bytes : Z }.

(** The fields of the kernel's [struct bpf_map_info] that the code reads. *)
Record bpf_map_info : Type := {
  type : Z;
  id : Z;
  name : string;
  key_size : Z;
  value_size : Z;
  max_entries : Z
}.

Record record : Type := { timestamp : Z; total : datarec }.

(** [struct stats_record]: the array [stats[XDP_ACTION_MAX]]. *)
Abbreviation stats_record := (list record).

Definition zero_datarec : datarec := {| rx_packets := 0; rx_bytes := 0 |}.
Definition zero_record : record := {| timestamp := 0; total := zero_datarec |}.
Definition zero_info : bpf_map_info :=
  {| type := 0; id := 0; name := ""; key_size := 0; value_size := 0; max_entries := 0 |}.

#[global] Instance record_inhabited : Inhabited record := populate zero_record.

(** [struct config] of common_defines.h, through the fields the code reads. *)
Record config : Type := {
  ifindex : Z;
  ifname : string;
  filename : string;
  progname : string;
  attach_mode : Z;
  do_unload : bool
}.

(** The kernel's map types (linux/bpf.h). *)
Definition BPF_MAP_TYPE_ARRAY : Z := 2.
Definition BPF_MAP_TYPE_PERCPU_ARRAY : Z := 6.

Definition NANOSEC_PER_SEC : Z := 1000000000.
Definition PATH_MAX : nat := 4096.
Definition pin_basedir : string := "/sys/fs/bpf".
Definition map_name : string := "xdp_stats_map".

(** Modelled from the spec: the exit codes of common_defines.h are not
    under src/; "Exit codes: 0 success". *)
Definition EXIT_OK : Z := 0.

(** What the headers of ../common and common_kern_user.h give the two
    programs and src/ does not hold: the failure exit codes, the number of
    outcome codes, the verbosity flag, and two helpers of the common
    library. They are parameters of the development. *)
Class Common : Type := {
  EXIT_FAIL : Z;
  EXIT_FAIL_OPTION : Z;
  EXIT_FAIL_BPF : Z;
  XDP_ACTION_MAX : nat;
  verbose : bool;
  action2str : Z -> string;
  (* check_map_fd_info(info, expected): 0 when the shapes agree *)
  check_map_fd_info : bpf_map_info -> bpf_map_info -> Z
}.

(** [snprintf(buf, size, ...)] on the already formatted text: the return
    value is the length of the whole text, the buffer keeps at most
    [size - 1] characters of it. *)
Definition snprintf (size : nat) (text : string) : Z * string :=
  (Z.of_nat (String.length text), String.substring 0 (size - 1) text).

(** ** xdp_stats.c *)

Module XdpStats.

(** The world as the reporter sees it. *)
Class Kernel (W : Type) : Type := {
  (* clock_gettime(CLOCK_MONOTONIC, &t): return value, t.tv_sec, t.tv_nsec *)
  clock_gettime : W -> W * (Z * (Z * Z));
  (* bpf_map_lookup_elem(fd, &key, buf): None when it returns non-zero,
     otherwise the records written to the buffer, one for an array map and
     one per possible CPU for a per-CPU array map *)
  bpf_map_lookup_elem : W -> Z -> Z -> W * option (list datarec);
  libbpf_num_possible_cpus : W -> Z;
  (* the bytes of stack that are left for a variable-length array *)
  stack_room : W -> Z;
  (* open_bpf_map_file(pin_dir, mapname, info) of the common library: the
     descriptor (negative on failure) and the info as it is afterwards *)
  open_bpf_map_file : W -> string -> string -> bpf_map_info -> W * (Z * bpf_map_info);
  close : W -> Z -> W;
  usleep : W -> Z -> W;
  sleep : W -> Z -> W;
  (* the bytes an uninitialised [struct datarec] local happens to hold *)
  uninit_datarec : W -> datarec
}.

Section Reporter.
Context `{Common} {W : Type} `{!Kernel W}.

Definition call_clock_gettime : M W (Z * (Z * Z)) :=
  call clock_gettime
       (fun r => Call "clock_gettime" [AInt (fst (snd r)); AInt (snd (snd r))] (fst r)).

Definition call_bpf_map_lookup_elem (fd key : Z) : M W (option (list datarec)) :=
  call (fun w => bpf_map_lookup_elem w fd key)
       (fun r => Call "bpf_map_lookup_elem" [AInt fd; AInt key]
                      (if r is Some _ then 0 else -1)).

Definition call_open_bpf_map_file (pin_dir mapname : string) (info : bpf_map_info)
  : M W (Z * bpf_map_info) :=
  call (fun w => open_bpf_map_file w pin_dir mapname info)
       (fun r => Call "open_bpf_map_file" [AStr pin_dir; AStr mapname] (fst r)).

Definition call_close (fd : Z) : M W unit :=
  call (fun w => (close w fd, tt)) (fun _ => Call "close" [AInt fd] 0).
Definition call_usleep (us : Z) : M W unit :=
  call (fun w => (usleep w us, tt)) (fun _ => Call "usleep" [AInt us] 0).
Definition call_sleep (s : Z) : M W unit :=
  call (fun w => (sleep w s, tt)) (fun _ => Call "sleep" [AInt s] 0).

Definition gettime : M W Z :=
  r <- call_clock_gettime ;;
  let '(res, (tv_sec, tv_nsec)) := r in
  if res <? 0 then
    fprintf_stderr "Error with gettimeofday! (%i)\n" [AInt res] ;;;
    exit EXIT_FAIL
  else ret (u64 (u64 tv_sec * NANOSEC_PER_SEC + tv_nsec)).

Definition calc_period (r p : record) : double :=
  let period := u64 (timestamp r - timestamp p) in
  if 0 <? period then D_div (D_of_int period) (D_of_int NANOSEC_PER_SEC)
  else D_of_int 0.

Definition head_fmt : string := "%-12s %16s %16s %18s %16s %s\n".

Definition stats_print_header : M W unit :=
  printf "\n" [] ;;;
  printf head_fmt [AStr "XDP-action"; AStr "packets"; AStr "packet rate";
                   AStr "Bytes"; AStr "Bit rate"; AStr "Time period"] ;;;
  printf head_fmt [AStr "------------"; AStr "----------------";
                   AStr "----------------"; AStr "------------------";
                   AStr "----------------"; AStr "---------------"].

Definition row_fmt : string :=
  "%-12s %'11lld pkts (%'10.0f pps) %'11lld Kbytes (%'6.0f Mbits/s) period:%f\n".

(** The body of the [for] of [stats_print], from index [i] for [n] more
    rounds; [false] when the function returned from inside the loop. *)
Fixpoint stats_print_rows (n i : nat) (stats_rec stats_prev : stats_record)
  : M W bool :=
  match n with
  | O => ret true
  | S n' =>
      let rec := stats_rec !!! i in
      let prev := stats_prev !!! i in
      let period := calc_period rec prev in
      if d_is_zero period then ret false
      else
        let packets := u64 (rx_packets (total rec) - rx_packets (total prev)) in
        pps <- fdiv (D_of_int packets) period ;;
        let bytes := u64 (rx_bytes (total rec) - rx_bytes (total prev)) in
        b <- fdiv (D_of_int (u64 (bytes * 8))) period ;;
        bps <- fdiv b (D_of_int 1000000) ;;
        printf row_fmt [AStr (action2str (Z.of_nat i));
                        AInt (rx_packets (total rec)); AReal pps;
                        AInt (rx_bytes (total rec) / 1000); AReal bps;
                        AReal period] ;;;
        stats_print_rows n' (S i) stats_rec stats_prev
  end.

Definition stats_print (stats_rec stats_prev : stats_record) : M W unit :=
  stats_print_header ;;;
  completed <- stats_print_rows XDP_ACTION_MAX 0 stats_rec stats_prev ;;
  if completed : bool then printf "\n" [] else ret tt.

(** BPF_MAP_TYPE_ARRAY: [value] is the caller's [struct datarec], written
    only when the lookup succeeds. *)
Definition map_get_value_array (fd key : Z) (value : datarec) : M W datarec :=
  r <- call_bpf_map_lookup_elem fd key ;;
  match r with
  | None =>
      fprintf_stderr "ERR: bpf_map_lookup_elem failed key:0x%X\n" [AInt key] ;;;
      ret value
  | Some values => ret (hd value values)
  end.

Definition sum_values (values : list datarec) : Z * Z :=
  fold_left (fun acc v => (u64 (fst acc + rx_packets v), u64 (snd acc + rx_bytes v)))
            values (0, 0).

(** [sizeof(struct datarec)]: two [__u64]. *)
Definition sizeof_datarec : Z := 16.

(** BPF_MAP_TYPE_PERCPU_ARRAY. The array [values[nr_cpus]] is on the stack:
    a count that is the [unsigned int] of a negative return of
    [libbpf_num_possible_cpus], or any count that the stack has no room
    for, ends the process before the lookup. *)
Definition map_get_value_percpu_array (fd key : Z) (value : datarec) : M W datarec :=
  fun w =>
  let nr_cpus := u32 (libbpf_num_possible_cpus w) in
  if stack_room w <? nr_cpus * sizeof_datarec then (w, [], StackOverflow) else
  (r <- call_bpf_map_lookup_elem fd key ;;
   match r with
   | None =>
       fprintf_stderr "ERR: bpf_map_lookup_elem failed key:0x%X\n" [AInt key] ;;;
       ret value
   | Some values =>
       let '(sum_pkts, sum_bytes) := sum_values (take (Z.to_nat nr_cpus) values) in
       ret {| rx_packets := sum_pkts; rx_bytes := sum_bytes |}
   end) w.

(** [map_collect] writes through [rec]; the record as it is afterwards is
    returned with the [bool]. The local [value] is declared without an
    initialiser. *)
Definition map_collect (fd map_type key : Z) (rec : record) : M W (bool * record) :=
  fun w =>
  let value := uninit_datarec w in
  (ts <- gettime ;;
   if map_type =? BPF_MAP_TYPE_ARRAY then
     value <- map_get_value_array fd key value ;;
     ret (true, {| timestamp := ts;
                   total := {| rx_packets := rx_packets value;
                               rx_bytes := rx_bytes value |} |})
   else if map_type =? BPF_MAP_TYPE_PERCPU_ARRAY then
     value <- map_get_value_percpu_array fd key value ;;
     ret (true, {| timestamp := ts;
                   total := {| rx_packets := rx_packets value;
                               rx_bytes := rx_bytes value |} |})
   else
     fprintf_stderr "ERR: Unknown map_type(%u) cannot handle\n" [AInt map_type] ;;;
     ret (false, {| timestamp := ts; total := total rec |})) w.

(** The [for] of [stats_collect], from [key] for [n] more rounds. *)
Fixpoint stats_collect_keys (n key : nat) (map_fd map_type : Z)
  (stats_rec : stats_record) : M W stats_record :=
  match n with
  | O => ret stats_rec
  | S n' =>
      r <- map_collect map_fd map_type (Z.of_nat key) (stats_rec !!! key) ;;
      stats_collect_keys n' (S key) map_fd map_type (<[key := snd r]> stats_rec)
  end.

Definition stats_collect (map_fd map_type : Z) (stats_rec : stats_record)
  : M W stats_record :=
  stats_collect_keys XDP_ACTION_MAX 0 map_fd map_type stats_rec.

(** Returns the error code with [*map_fd] and [*info] as they are left. *)
Definition open_check_bpf_map_file (pin_dir mapname : string)
  (expected info : bpf_map_info) : M W (Z * (Z * bpf_map_info)) :=
  r <- call_open_bpf_map_file pin_dir mapname info ;;
  let '(map_fd, info) := r in
  if map_fd <? 0 then
    fprintf_stderr "ERR: open_bpf_map_file failed for %s/%s\n" [AStr pin_dir; AStr mapname] ;;;
    ret (EXIT_FAIL_BPF, (map_fd, info))
  else
    let err := check_map_fd_info info expected in
    if negb (err =? 0) then
      fprintf_stderr "ERR: map via FD not compatible\n" [] ;;;
      ret (err, (map_fd, info))
    else
      (if verbose then
         printf " - BPF map (bpf_map_type:%d) fd:%d id:%d name:%s key_size:%d value_size:%d max_entries:%d\n"
                [AInt (type info); AInt map_fd; AInt (id info);
                 AStr (name info); AInt (key_size info); AInt (value_size info);
                 AInt (max_entries info)]
       else ret tt) ;;;
      ret (EXIT_OK, (map_fd, info)).

(** *** The poll loop *)

(** The locals of [stats_poll_map_reload], with [*map_fd] and [*info] of
    its caller. The identifiers are the [__u32] ids of the kernel; the
    [int] they are copied to holds them one to one. *)
Record poll_state : Type := {
  map_fd : Z;
  info : bpf_map_info;
  map_id : Z;
  map_id_prev : Z;
  map_type : Z;
  record_ : stats_record;
  prev : stats_record
}.

(** Where the loop stands: at the top of the [while (1)], or at the
    condition of the inner [while] that re-opens the map. *)
Inductive label : Type := LoopTop | Reopen.

(** Lines 257 to 265: up to the first [usleep]. [map_id_prev] and [prev]
    are written before they are first read. *)
Definition stats_poll_prologue (info0 : bpf_map_info) (map_fd0 : Z) : M W poll_state :=
  let map_id := id info0 in
  let map_type := type info0 in
  emit (Call "setlocale" [AStr "en_US"] 0) ;;;
  record <- stats_collect map_fd0 map_type (replicate XDP_ACTION_MAX zero_record) ;;
  call_usleep (1000000 / 4) ;;;
  ret {| map_fd := map_fd0; info := info0; map_id := map_id; map_id_prev := 0;
         map_type := map_type; record_ := record; prev := [] |}.

(** Lines 278 to 295: the rest of the round once the map is open again. *)
Definition poll_report (interval : Z) (st : poll_state) : M W (label * poll_state) :=
  (* map_id = info->id *)
  let st := {| map_fd := map_fd st; info := info st; map_id := id (info st);
               map_id_prev := map_id_prev st; map_type := map_type st;
               record_ := record_ st; prev := prev st |} in
  st1 <- (if negb (map_id_prev st =? map_id st) then
            fprintf_stderr " - ERR: map reloaded\n" [] ;;;
            baseline <- stats_collect (map_fd st) (type (info st)) (record_ st) ;;
            call_usleep (1000000 / 4) ;;;
            ret {| map_fd := map_fd st; info := info st; map_id := map_id st;
                   map_id_prev := map_id st; map_type := type (info st);
                   record_ := baseline; prev := prev st |}
          else ret st) ;;
  (* prev = record *)
  let st2 := {| map_fd := map_fd st1; info := info st1; map_id := map_id st1;
                map_id_prev := map_id_prev st1; map_type := map_type st1;
                record_ := record_ st1; prev := record_ st1 |} in
  collected <- stats_collect (map_fd st2) (map_type st2) (record_ st2) ;;
  stats_print collected (prev st2) ;;;
  call_sleep interval ;;;
  ret (LoopTop, {| map_fd := map_fd st2; info := info st2; map_id := map_id st2;
                   map_id_prev := map_id_prev st2; map_type := map_type st2;
                   record_ := collected; prev := prev st2 |}).

(** One step of the loop: from the top to the inner [while], or one
    evaluation of the inner [while]'s condition with what follows it. *)
Definition poll_step (pin_dir mapname : string) (map_expect : bpf_map_info)
  (interval : Z) (l : label) (st : poll_state) : M W (label * poll_state) :=
  match l with
  | LoopTop =>
      call_close (map_fd st) ;;;
      ret (Reopen, {| map_fd := map_fd st; info := info st; map_id := map_id st;
                      map_id_prev := map_id st; map_type := map_type st;
                      record_ := record_ st; prev := prev st |})
  | Reopen =>
      r <- open_check_bpf_map_file pin_dir mapname map_expect (info st) ;;
      let '(err, (fd, inf)) := r in
      let st := {| map_fd := fd; info := inf; map_id := map_id st;
                   map_id_prev := map_id_prev st; map_type := map_type st;
                   record_ := record_ st; prev := prev st |} in
      if (err =? EXIT_FAIL_BPF) || negb (err =? EXIT_OK) then
        fprintf_stderr "ERR: map still reloading\n" [] ;;;
        call_usleep (1000000 / 4) ;;;
        ret (Reopen, st)
      else poll_report interval st
  end.

Fixpoint poll_run (n : nat) (pin_dir mapname : string) (map_expect : bpf_map_info)
  (interval : Z) (l : label) (st : poll_state) : M W (label * poll_state) :=
  match n with
  | O => ret (l, st)
  | S n' =>
      c <- poll_step pin_dir mapname map_expect interval l st ;;
      poll_run n' pin_dir mapname map_expect interval (fst c) (snd c)
  end.

(** [stats_poll_map_reload] has no [return]: the value is where the loop
    stands after [n] steps, and the process has ended when the outcome is
    [Exit]. *)
Definition stats_poll_map_reload (n : nat) (pin_dir mapname : string)
  (map_expect info0 : bpf_map_info) (map_fd0 interval : Z)
  : M W (label * poll_state) :=
  st <- stats_poll_prologue info0 map_fd0 ;;
  poll_run n pin_dir mapname map_expect interval LoopTop st.

(** How [main] stands after [n] steps of the loop: it has returned, or the
    loop is running. *)
Inductive main_status : Type :=
| Returned (code : Z)
| Polling (l : label) (st : poll_state).

(** [main], from the configuration that [parse_cmdline_args] filled in. *)
Definition main (n : nat) (cfg : config) : M W main_status :=
  let interval := 2 in
  if ifindex cfg =? -1 then
    fprintf_stderr "ERR: required option --dev missing\n\n" [] ;;;
    emit (Call "usage" [] 0) ;;;
    ret (Returned EXIT_FAIL_OPTION)
  else
    let '(len, pin_dir) := snprintf PATH_MAX (pin_basedir +:+ "/" +:+ ifname cfg) in
    if len <? 0 then
      fprintf_stderr "ERR: creating pin dirname\n" [] ;;;
      ret (Returned EXIT_FAIL_OPTION)
    else
      let map_expect := {| type := 0; id := 0; name := ""; key_size := 4;
                           value_size := 16;
                           max_entries := Z.of_nat XDP_ACTION_MAX |} in
      r <- open_check_bpf_map_file pin_dir "xdp_stats_map" map_expect zero_info ;;
      let '(err, (stats_map_fd, info)) := r in
      if negb (err =? EXIT_OK) then ret (Returned err)
      else
        c <- stats_poll_map_reload n pin_dir "xdp_stats_map" map_expect info
                                   stats_map_fd interval ;;
        ret (Polling (fst c) (snd c)).

End Reporter.
End XdpStats.

(** ** The loader *)

Module XdpLoader.

(** The world as the loader sees it: libxdp, libbpf and the bpf file
    system. The handles of the libraries are opaque. *)
Class Kernel (W : Type) : Type := {
  xdp_program : Type;
  bpf_object : Type;
  bpf_map : Type;
  (* access(path, F_OK): 0 or -1 *)
  access : W -> string -> W * Z;
  (* bpf_obj_get(path): a descriptor, negative on failure *)
  bpf_obj_get : W -> string -> W * Z;
  (* bpf_object__find_map_by_name: None for NULL *)
  bpf_object__find_map_by_name : W -> bpf_object -> string -> option bpf_map;
  bpf_map__reuse_fd : W -> bpf_map -> Z -> W * Z;
  bpf_object__unpin_maps : W -> bpf_object -> string -> W * Z;
  bpf_object__pin_maps : W -> bpf_object -> string -> W * Z;
  (* xdp_program__create with open_filename and prog_name *)
  xdp_program__create : W -> string -> string -> W * xdp_program;
  libxdp_get_error : xdp_program -> Z;
  xdp_program__bpf_obj : xdp_program -> bpf_object;
  (* xdp_program__attach(program, ifindex, mode, flags) *)
  xdp_program__attach : W -> xdp_program -> Z -> Z -> Z -> W * Z;
  xdp_program__close : W -> xdp_program -> W;
  close : W -> Z -> W
}.

Section Loader.
Context `{Common} {W : Type} `{!Kernel W}.

Definition call_access (path : string) : M W Z :=
  call (fun w => access w path) (fun r => Call "access" [AStr path] r).

Definition call_bpf_obj_get (path : string) : M W Z :=
  call (fun w => bpf_obj_get w path) (fun r => Call "bpf_obj_get" [AStr path] r).

(** The event gives 1 for a map and 0 for NULL. *)
Definition call_find_map_by_name (bpf_obj : bpf_object) (mapname : string)
  : M W (option bpf_map) :=
  call (fun w => (w, bpf_object__find_map_by_name w bpf_obj mapname))
       (fun r => Call "bpf_object__find_map_by_name" [AStr mapname]
                      (if r is Some _ then 1 else 0)).

Definition call_reuse_fd (map : bpf_map) (fd : Z) : M W Z :=
  call (fun w => bpf_map__reuse_fd w map fd)
       (fun r => Call "bpf_map__reuse_fd" [AInt fd] r).

Definition call_unpin_maps (bpf_obj : bpf_object) (dir : string) : M W Z :=
  call (fun w => bpf_object__unpin_maps w bpf_obj dir)
       (fun r => Call "bpf_object__unpin_maps" [AStr dir] r).

Definition call_pin_maps (bpf_obj : bpf_object) (dir : string) : M W Z :=
  call (fun w => bpf_object__pin_maps w bpf_obj dir)
       (fun r => Call "bpf_object__pin_maps" [AStr dir] r).

Definition call_create (file prog : string) : M W xdp_program :=
  call (fun w => xdp_program__create w file prog)
       (fun r => Call "xdp_program__create" [AStr file; AStr prog] (libxdp_get_error r)).

Definition call_attach (program : xdp_program) (ifidx mode flags : Z) : M W Z :=
  call (fun w => xdp_program__attach w program ifidx mode flags)
       (fun r => Call "xdp_program__attach" [AInt ifidx; AInt mode; AInt flags] r).

Definition call_program_close (program : xdp_program) : M W unit :=
  call (fun w => (xdp_program__close w program, tt))
       (fun _ => Call "xdp_program__close" [] 0).

Definition call_close (fd : Z) : M W unit :=
  call (fun w => (close w fd, tt)) (fun _ => Call "close" [AInt fd] 0).

Definition when_verbose (fmt : string) (args : list arg) : M W unit :=
  if verbose then printf fmt args else ret tt.

(** Pinning maps under /sys/fs/bpf in subdir *)
Definition pin_maps_in_bpf_object (bpf_obj : bpf_object) (subdir : string) : M W Z :=
  let '(len, pin_dir) := snprintf PATH_MAX (pin_basedir +:+ "/" +:+ subdir) in
  if len <? 0 then
    fprintf_stderr "ERR: creating pin dirname\n" [] ;;;
    ret EXIT_FAIL_OPTION
  else
    let '(len, map_filename) :=
      snprintf PATH_MAX (pin_basedir +:+ "/" +:+ subdir +:+ "/" +:+ map_name) in
    if len <? 0 then
      fprintf_stderr "ERR: creating map_name\n" [] ;;;
      ret EXIT_FAIL_OPTION
    else
      a <- call_access map_filename ;;
      (* Existing/previous XDP prog might not have cleaned up *)
      unpinned <- (if negb (a =? -1) then
                     when_verbose " - Unpinning (remove) prev maps in %s/\n" [AStr pin_dir] ;;;
                     err <- call_unpin_maps bpf_obj pin_dir ;;
                     if negb (err =? 0) then
                       fprintf_stderr "ERR: UNpinning maps in %s\n" [AStr pin_dir] ;;;
                       ret (Some EXIT_FAIL_BPF)
                     else ret None
                   else ret None) ;;
      match unpinned with
      | Some code => ret code
      | None =>
          when_verbose " - Pinning maps in %s/\n" [AStr pin_dir] ;;;
          (* This will pin all maps in our bpf_object *)
          err <- call_pin_maps bpf_obj pin_dir ;;
          if negb (err =? 0) then ret EXIT_FAIL_BPF
          else
            printf "Leaving pin_maps_in_bpf_object...\n" [] ;;;
            ret 0
      end.

(** Check if pinned map exists and reuse it: 1 when the map was reused, 0
    when there is nothing to reuse, -1 on error. *)
Definition reuse_pinned_map (bpf_obj : bpf_object) (subdir : string) : M W Z :=
  let '(len, pin_path) :=
    snprintf PATH_MAX (pin_basedir +:+ "/" +:+ subdir +:+ "/" +:+ map_name) in
  if len <? 0 then
    fprintf_stderr "ERR: creating pin path\n" [] ;;;
    ret (-1)
  else
    a <- call_access pin_path ;;
    if negb (a =? 0) then
      when_verbose " - No existing pinned map found\n" [] ;;;
      ret 0
    else
      pinned_fd <- call_bpf_obj_get pin_path ;;
      if pinned_fd <? 0 then
        when_verbose " - Failed to open pinned map: %s\n" [] ;;;
        ret 0
      else
        when_verbose " - Found existing pinned map at %s\n" [AStr pin_path] ;;;
        map <- call_find_map_by_name bpf_obj map_name ;;
        match map with
        | None =>
            fprintf_stderr "ERR: cannot find map '%s' in BPF object\n" [AStr map_name] ;;;
            call_close pinned_fd ;;;
            ret (-1)
        | Some map =>
            err <- call_reuse_fd map pinned_fd ;;
            if negb (err =? 0) then
              fprintf_stderr "ERR: failed to reuse pinned map: %s\n" [AInt (- err)] ;;;
              call_close pinned_fd ;;;
              ret (-1)
            else
              when_verbose " - Successfully reused pinned map\n" [] ;;;
              printf "Leaving reuse_pinned_map\n" [] ;;;
              ret 1
        end.

Definition error_exit : M W (option xdp_program) :=
  fprintf_stderr
    "ERR: Failed to load and attach XDP program. Leaving load_bpf_and_xdp_attach_with_reuse...\n" [] ;;;
  ret None.

(** Load BPF program with map reuse capability; None for NULL. *)
Definition load_bpf_and_xdp_attach_with_reuse (cfg : config) : M W (option xdp_program) :=
  program <- call_create (filename cfg) (progname cfg) ;;
  let err := libxdp_get_error program in
  if negb (err =? 0) then
    fprintf_stderr "ERR: Failed to create XDP program: %s\n" [AInt err] ;;;
    error_exit
  else
    let bpf_obj := xdp_program__bpf_obj program in
    (* lines 210 to 230, with the value [map_reused] has there *)
    let attach_and_pin (map_reused : Z) : M W (option xdp_program) :=
      (* Now attach the program *)
      err <- call_attach program (ifindex cfg) (attach_mode cfg) 0 ;;
      if negb (err =? 0) then
        fprintf_stderr "ERR: Failed to attach XDP program\n" [] ;;;
        call_program_close program ;;;
        error_exit
      else
        (* Only pin maps if we didn't reuse existing ones *)
        (if map_reused =? 0 then
           err <- pin_maps_in_bpf_object bpf_obj (ifname cfg) ;;
           if negb (err =? 0) then fprintf_stderr "ERR: pinning maps\n" []
           else ret tt
         else when_verbose " - Skipped map pinning (reused existing)\n" []) ;;;
        printf "Leaving load_bpf_and_xdp_attach_with_reuse...\n" [] ;;;
        ret (Some program) in
    (* Try to reuse existing pinned map BEFORE attaching *)
    err <- reuse_pinned_map bpf_obj (ifname cfg) ;;
    if 0 <? err then attach_and_pin 1
    else if err <? 0 then
      fprintf_stderr "ERR: Failed to reuse pinned map\n" [] ;;;
      call_program_close program ;;;
      error_exit
    else attach_and_pin 0.

(** [main], from the configuration that [parse_cmdline_args] filled in. *)
Definition main (cfg : config) : M W Z :=
  if ifindex cfg =? -1 then
    fprintf_stderr "ERR: required option --dev missing\n\n" [] ;;;
    emit (Call "usage" [] 0) ;;;
    ret EXIT_FAIL_OPTION
  else
    program <- load_bpf_and_xdp_attach_with_reuse cfg ;;
    match program with
    | None => ret EXIT_FAIL_BPF
    | Some _ =>
        (if verbose then
           printf "Success: Loaded BPF-object(%s) and used program(%s)\n"
                  [AStr (filename cfg); AStr (progname cfg)] ;;;
           printf " - XDP prog attached on device:%s(ifindex:%d)\n"
                  [AStr (ifname cfg); AInt (ifindex cfg)]
         else ret tt) ;;;
        ret EXIT_OK
    end.

End Loader.
End XdpLoader.

(** ** Two worlds to run the programs in *)

(** A clock that advances with every reading and every sleep, a script of
    the results of the successive opens of the pinned map, and one table
    of counters per descriptor; 8 MiB of stack. *)
Module SimStats.

Record world : Type := {
  now : Z;                               (* the monotonic clock, in ns *)
  tick : Z;                              (* what a reading of the clock costs *)
  opens : list (Z * bpf_map_info);       (* the opens still to come *)
  table : Z -> Z -> option (list datarec); (* descriptor, key: the values *)
  cpus : Z;
  stack : datarec
}.

Definition advance (w : world) (ns : Z) : world :=
  {| now := now w + ns; tick := tick w; opens := opens w; table := table w;
     cpus := cpus w; stack := stack w |}.

#[global] Instance kernel : XdpStats.Kernel world := {
  XdpStats.clock_gettime w :=
    (advance w (tick w), (0, (now w / NANOSEC_PER_SEC, now w mod NANOSEC_PER_SEC)));
  XdpStats.bpf_map_lookup_elem w fd key := (w, table w fd key);
  XdpStats.libbpf_num_possible_cpus w := cpus w;
  XdpStats.stack_room w := 8388608;
  XdpStats.open_bpf_map_file w _ _ info0 :=
    match opens w with
    | [] => (w, (-1, info0))
    | r :: rest =>
        ({| now := now w; tick := tick w; opens := rest; table := table w;
            cpus := cpus w; stack := stack w |}, r)
    end;
  XdpStats.close w _ := w;
  XdpStats.usleep w us := advance w (us * 1000);
  XdpStats.sleep w s := advance w (s * NANOSEC_PER_SEC);
  XdpStats.uninit_datarec w := stack w
}.

End SimStats.

(** A bpf file system as the list of the paths that exist, the names of the
    maps the object file declares, and the result of each library call. *)
Module SimLoader.

Record world : Type := {
  pinned : list string;
  declared : list string;
  obj_get_fd : Z;
  create_err : Z;
  reuse_err : Z;
  attach_err : Z;
  unpin_err : Z;
  pin_err : Z
}.

Definition with_pinned (w : world) (paths : list string) : world :=
  {| pinned := paths; declared := declared w; obj_get_fd := obj_get_fd w;
     create_err := create_err w; reuse_err := reuse_err w;
     attach_err := attach_err w; unpin_err := unpin_err w; pin_err := pin_err w |}.

Definition paths_of (w : world) (dir : string) : list string :=
  map (fun m => dir +:+ "/" +:+ m) (declared w).

#[global] Instance kernel : XdpLoader.Kernel world := {
  XdpLoader.xdp_program := Z;
  XdpLoader.bpf_object := unit;
  XdpLoader.bpf_map := string;
  XdpLoader.access w path := (w, if bool_decide (path ∈ pinned w) then 0 else -1);
  XdpLoader.bpf_obj_get w path := (w, obj_get_fd w);
  XdpLoader.bpf_object__find_map_by_name w _ m :=
    if bool_decide (m ∈ declared w) then Some m else None;
  XdpLoader.bpf_map__reuse_fd w _ _ := (w, reuse_err w);
  XdpLoader.bpf_object__unpin_maps w _ dir :=
    if unpin_err w =? 0
    then (with_pinned w (filter (fun p => p ∉ paths_of w dir) (pinned w)), 0)
    else (w, unpin_err w);
  XdpLoader.bpf_object__pin_maps w _ dir :=
    if pin_err w =? 0
    then (with_pinned w (paths_of w dir ++ pinned w), 0)
    else (w, pin_err w);
  XdpLoader.xdp_program__create w _ _ := (w, create_err w);
  XdpLoader.libxdp_get_error p := p;
  XdpLoader.xdp_program__bpf_obj _ := tt;
  XdpLoader.xdp_program__attach w _ _ _ _ := (w, attach_err w);
  XdpLoader.xdp_program__close w _ := w;
  XdpLoader.close w _ := w
}.

End SimLoader.

(** Modelled from the spec: an instance of what the missing headers give,
    to run the programs with. The exit codes are 0 for success and distinct
    non-zero codes for the failures; there are five outcome codes; the shape
    check compares key size, value size and entry count with the expected
    ones and gives the entry count an error of its own. *)
Definition defines : Common := {|
  EXIT_FAIL := 1;
  EXIT_FAIL_OPTION := 2;
  EXIT_FAIL_BPF := 40;
  XDP_ACTION_MAX := 5;
  verbose := true;
  action2str a :=
    if a =? 0 then "XDP_ABORTED" else if a =? 1 then "XDP_DROP"
    else if a =? 2 then "XDP_PASS" else if a =? 3 then "XDP_TX"
    else if a =? 4 then "XDP_REDIRECT" else "";
  check_map_fd_info inf exp :=
    if negb (key_size exp =? key_size inf) then 1
    else if negb (value_size exp =? value_size inf) then 1
    else if negb (max_entries exp =? max_entries inf) then 3
    else 0
|}.

(** * Vocabulary of the statements *)

Section ReportVocabulary.
Context `{Common}.

(** The three lines that [stats_print_header] writes. *)
Definition report_header : list event :=
  [Stdout "\n" [];
   Stdout XdpStats.head_fmt
          [AStr "XDP-action"; AStr "packets"; AStr "packet rate";
           AStr "Bytes"; AStr "Bit rate"; AStr "Time period"];
   Stdout XdpStats.head_fmt
          [AStr "------------"; AStr "----------------";
           AStr "----------------"; AStr "------------------";
           AStr "----------------"; AStr "---------------"]].

(** The nanoseconds elapsed for outcome [i] between two snapshots, as the
    [__u64] that [calc_period] computes. *)
Definition elapsed (stats_rec stats_prev : stats_record) (i : nat) : Z :=
  u64 (timestamp (stats_rec !!! i) - timestamp (stats_prev !!! i)).

(** The row of outcome [i]: the arguments of its [printf], the two rates
    and the period as the expressions that the code evaluates. *)
Definition report_row (stats_rec stats_prev : stats_record) (i : nat) : event :=
  let rec := stats_rec !!! i in
  let prev := stats_prev !!! i in
  let period := XdpStats.calc_period rec prev in
  let packets := u64 (rx_packets (total rec) - rx_packets (total prev)) in
  let bytes := u64 (rx_bytes (total rec) - rx_bytes (total prev)) in
  Stdout XdpStats.row_fmt
         [AStr (action2str (Z.of_nat i));
          AInt (rx_packets (total rec));
          AReal (D_div (D_of_int packets) period);
          AInt (rx_bytes (total rec) / 1000);
          AReal (D_div (D_div (D_of_int (u64 (bytes * 8))) period) (D_of_int 1000000));
          AReal period].

End ReportVocabulary.

(** What a collection pass does that matters for its timestamps: a reading
    of the clock, with the timestamp [gettime] makes of it, and a lookup of
    a key. *)
Inductive obs : Type :=
| Tick (t : Z)
| Read (key : Z).

Definition observe (e : event) : option obs :=
  match e with
  | Call fn args _ =>
      if String.eqb fn "clock_gettime" then
        match args with
        | [AInt tv_sec; AInt tv_nsec] =>
            Some (Tick (u64 (u64 tv_sec * NANOSEC_PER_SEC + tv_nsec)))
        | _ => None
        end
      else if String.eqb fn "bpf_map_lookup_elem" then
        match args with
        | [AInt _; AInt key] => Some (Read key)
        | _ => None
        end
      else None
  | _ => None
  end.

(** The two kinds of map that [map_collect] can read. *)
Definition is_array_kind (map_type : Z) : bool :=
  (map_type =? BPF_MAP_TYPE_ARRAY) || (map_type =? BPF_MAP_TYPE_PERCPU_ARRAY).

(** What the pass does for one key, seen from the snapshot it leaves: the
    clock reading that is the timestamp of the key's record, then the
    lookup of the key. *)
Definition stamp_and_read (snap : stats_record) (key : nat) : list obs :=
  [Tick (timestamp (snap !!! key)); Read (Z.of_nat key)].

(** The sentence of the specification on [collect_all]: the pass reads the
    clock once, before its first lookup, and that one reading is the
    timestamp of the whole snapshot. *)
Definition one_timestamp_per_pass (tr : list event) (snap : stats_record) : Prop :=
  exists t reads,
    omap observe tr = Tick t :: reads /\
    (forall o, o ∈ reads -> exists key, o = Read key) /\
    (forall r, r ∈ snap -> timestamp r = t).

(** The events of one backoff of the re-open loop. *)
Definition backoff : list event :=
  [Stderr "ERR: map still reloading\n" []; Call "usleep" [AInt 250000] 0].

Definition is_call (fn : string) (e : event) : bool :=
  match e with
  | Call f _ _ => String.eqb f fn
  | _ => false
  end.

Definition is_stderr (fmt : string) (e : event) : bool :=
  match e with
  | Stderr f _ => String.eqb f fmt
  | _ => false
  end.

(** How often a function is called in a trace, and how often a line is
    written to stderr. *)
Definition calls (fn : string) (tr : list event) : nat :=
  length (filter (fun e => is_call fn e = true) tr).
Definition complaints (fmt : string) (tr : list event) : nat :=
  length (filter (fun e => is_stderr fmt e = true) tr).

(** A line of the report: the header lines and the rows. *)
Definition is_report_line (e : event) : bool :=
  match e with
  | Stdout f _ => String.eqb f XdpStats.head_fmt || String.eqb f XdpStats.row_fmt
  | _ => false
  end.

Definition report_lines (tr : list event) : list event :=
  filter (fun e => is_report_line e = true) tr.

(** What a failed attempt to open the pinned map leaves in the trace, with
    the backoff that follows it. *)
Definition failed_open (pin_dir mapname : string) (fd : Z) : list event :=
  [Call "open_bpf_map_file" [AStr pin_dir; AStr mapname] fd;
   Stderr "ERR: open_bpf_map_file failed for %s/%s\n" [AStr pin_dir; AStr mapname]]
  ++ backoff.

Section PollVocabulary.
Import XdpStats.
Context `{Common} {W : Type} `{!Kernel W}.

(** The state once [open_check_bpf_map_file] has written [*map_fd] and
    [*info]. *)
Definition reopened (st : poll_state) (fd : Z) (inf : bpf_map_info) : poll_state :=
  {| map_fd := fd; info := inf; map_id := map_id st;
     map_id_prev := map_id_prev st; map_type := map_type st;
     record_ := record_ st; prev := prev st |}.

(** The next [n] attempts to open the pinned map all fail, with the
    backoff of the loop between them. *)
Fixpoint opens_fail (n : nat) (pin_dir mapname : string) (w : W)
  (info0 : bpf_map_info) : Prop :=
  match n with
  | O => True
  | S n' =>
      let '(w1, (fd, inf)) := open_bpf_map_file w pin_dir mapname info0 in
      fd < 0 /\ opens_fail n' pin_dir mapname (usleep w1 (1000000 / 4)) inf
  end.

(** The next [n] attempts are all refused: the map cannot be opened, or it
    opens and does not have the expected shape. *)
Fixpoint reopen_refused (n : nat) (pin_dir mapname : string)
  (map_expect : bpf_map_info) (w : W) (info0 : bpf_map_info) : Prop :=
  match n with
  | O => True
  | S n' =>
      let '(w1, (fd, inf)) := open_bpf_map_file w pin_dir mapname info0 in
      (fd < 0 \/ (0 <= fd /\ check_map_fd_info inf map_expect <> 0)) /\
      reopen_refused n' pin_dir mapname map_expect (usleep w1 (1000000 / 4)) inf
  end.

(** The sentence of the specification on a changed generation identifier:
    the round in which the re-opened map has another identifier than the
    recorded one prints no report. *)
Definition reload_round_is_silent (pin_dir mapname : string)
  (map_expect : bpf_map_info) (interval : Z) (st : poll_state) (w : W) : Prop :=
  forall w1 t1 fd inf,
    open_check_bpf_map_file pin_dir mapname map_expect (info st) w
      = (w1, t1, Ret (EXIT_OK, (fd, inf))) ->
    id inf <> map_id_prev st ->
    report_lines (trace_of (poll_step pin_dir mapname map_expect interval Reopen st w)) = [].

(** The sentence of the specification on a zero period: when no time has
    elapsed between the two snapshots, nothing is printed for the sample. *)
Definition zero_period_prints_nothing (stats_rec stats_prev : stats_record)
  (w : W) : Prop :=
  (forall i, (i < XDP_ACTION_MAX)%nat -> elapsed stats_rec stats_prev i = 0) ->
  trace_of (stats_print stats_rec stats_prev w) = [].

End PollVocabulary.


(** A call of [fn] whose return value passes [ok]. *)
Definition call_returned (fn : string) (ok : Z -> bool) (e : event) : bool :=
  match e with
  | Call f _ r => String.eqb f fn && ok r
  | _ => false
  end.

(** The table was pinned by this run: [bpf_object__pin_maps] was called
    and returned 0. *)
Definition pinned_by_this_run (tr : list event) : bool :=
  existsb (call_returned "bpf_object__pin_maps" (Z.eqb 0)) tr.

(** The table was reused from a prior pin: [bpf_map__reuse_fd] was called
    and returned 0. *)
Definition reused_prior_pin (tr : list event) : bool :=
  existsb (call_returned "bpf_map__reuse_fd" (Z.eqb 0)) tr.

(** The pin step failed: its unpin or its pin returned an error. *)
Definition pin_step_failed (tr : list event) : bool :=
  existsb (fun e =>
             call_returned "bpf_object__pin_maps" (fun r => negb (r =? 0)) e
             || call_returned "bpf_object__unpin_maps" (fun r => negb (r =? 0)) e)
          tr.

(** The two paths that the loader formats for a device. *)
Definition pin_dir_of (subdir : string) : string :=
  snd (snprintf PATH_MAX (pin_basedir +:+ "/" +:+ subdir)).
Definition pin_path_of (subdir : string) : string :=
  snd (snprintf PATH_MAX (pin_basedir +:+ "/" +:+ subdir +:+ "/" +:+ map_name)).

Section LoaderVocabulary.
Import XdpLoader.
Context `{Common} {W : Type} `{!Kernel W}.

(** The sentence of the specification on [try_reuse]: the fatal result
    comes only from a table name that the program does not declare. *)
Definition fatal_only_for_missing_name (bpf_obj : bpf_object) (subdir : string)
  (w : W) : Prop :=
  result_of (reuse_pinned_map bpf_obj subdir w) = Ret (-1) ->
  bpf_object__find_map_by_name w bpf_obj map_name = None.

End LoaderVocabulary.

(** * Sample inputs *)

Definition stats_map_info (map_id : Z) : bpf_map_info :=
  {| type := BPF_MAP_TYPE_ARRAY; id := map_id; name := "xdp_stats_map";
     key_size := 4; value_size := 16; max_entries := 5 |}.

(** A table on which the lookup of key 1 fails; the other keys hold
    counters that depend on the descriptor and the key. *)
Definition lossy_table (fd key : Z) : option (list datarec) :=
  if key =? 1 then None
  else Some [{| rx_packets := fd * 10 + key; rx_bytes := 1000 * key |}].

Definition lossy_world : SimStats.world :=
  {| SimStats.now := 5000000000; SimStats.tick := 100;
     SimStats.opens := [(3, stats_map_info 7); (-1, zero_info); (4, stats_map_info 8)];
     SimStats.table := lossy_table;
     SimStats.cpus := 2;
     SimStats.stack := {| rx_packets := 666; rx_bytes := 777 |} |}.

(** A record as an earlier pass left it. *)
Definition seen_record : record :=
  {| timestamp := 1000; total := {| rx_packets := 5; rx_bytes := 500 |} |}.

(** A table on which every lookup succeeds. *)
Definition steady_table (fd key : Z) : option (list datarec) :=
  Some [{| rx_packets := fd * 10 + key; rx_bytes := 1000 * key |}].

Definition steady_world : SimStats.world :=
  {| SimStats.now := 5000000000; SimStats.tick := 100;
     SimStats.opens := [(4, stats_map_info 8)];
     SimStats.table := steady_table;
     SimStats.cpus := 2;
     SimStats.stack := {| rx_packets := 666; rx_bytes := 777 |} |}.

(** A world in which the pinned map is gone: every open fails. *)
Definition dead_world : SimStats.world :=
  {| SimStats.now := 5000000000; SimStats.tick := 100;
     SimStats.opens := [];
     SimStats.table := steady_table;
     SimStats.cpus := 2;
     SimStats.stack := {| rx_packets := 666; rx_bytes := 777 |} |}.

(** A world in which the next open finds a map of four entries and the one
    after it fails. *)
Definition reloading_world : SimStats.world :=
  {| SimStats.now := 5000000000; SimStats.tick := 100;
     SimStats.opens :=
       [(5, {| type := BPF_MAP_TYPE_ARRAY; id := 9; name := "xdp_stats_map";
               key_size := 4; value_size := 16; max_entries := 4 |});
        (-1, zero_info)];
     SimStats.table := steady_table;
     SimStats.cpus := 2;
     SimStats.stack := {| rx_packets := 666; rx_bytes := 777 |} |}.

(** The shape that [main] of the reporter expects, with five outcomes. *)
Definition reporter_expect : bpf_map_info :=
  {| type := 0; id := 0; name := ""; key_size := 4; value_size := 16;
     max_entries := 5 |}.

(** The reporter in the middle of its loop, on the map with identifier 7. *)
Definition polling_state : XdpStats.poll_state :=
  {| XdpStats.map_fd := 3; XdpStats.info := stats_map_info 7;
     XdpStats.map_id := 7; XdpStats.map_id_prev := 7;
     XdpStats.map_type := BPF_MAP_TYPE_ARRAY;
     XdpStats.record_ := replicate 5 seen_record;
     XdpStats.prev := replicate 5 zero_record |}.

(** The keys that a trace looks up, in order. *)
Definition keys_read (tr : list event) : list Z :=
  omap (fun e => match observe e with Some (Read key) => Some key | _ => None end) tr.

Definition veth0 : config :=
  {| ifindex := 3; ifname := "veth0"; filename := "xdp_prog_kern.o";
     progname := "xdp_stats1_func"; attach_mode := 0; do_unload := false |}.

(** A host on which nothing is pinned yet. *)
Definition fresh_host : SimLoader.world :=
  {| SimLoader.pinned := []; SimLoader.declared := ["xdp_stats_map"];
     SimLoader.obj_get_fd := 7; SimLoader.create_err := 0;
     SimLoader.reuse_err := 0; SimLoader.attach_err := 0;
     SimLoader.unpin_err := 0; SimLoader.pin_err := 0 |}.

(** A host on which an earlier run left the map pinned for veth0. *)
Definition pinned_host : SimLoader.world :=
  {| SimLoader.pinned := ["/sys/fs/bpf/veth0/xdp_stats_map"];
     SimLoader.declared := ["xdp_stats_map"];
     SimLoader.obj_get_fd := 7; SimLoader.create_err := 0;
     SimLoader.reuse_err := 0; SimLoader.attach_err := 0;
     SimLoader.unpin_err := 0; SimLoader.pin_err := 0 |}.

(** The same host when libbpf refuses to swap the descriptor (-EINVAL). *)
Definition stubborn_host : SimLoader.world :=
  {| SimLoader.pinned := ["/sys/fs/bpf/veth0/xdp_stats_map"];
     SimLoader.declared := ["xdp_stats_map"];
     SimLoader.obj_get_fd := 7; SimLoader.create_err := 0;
     SimLoader.reuse_err := -22; SimLoader.attach_err := 0;
     SimLoader.unpin_err := 0; SimLoader.pin_err := 0 |}.

(** A host on which nothing is pinned and pinning fails (-EPERM). *)
Definition readonly_host : SimLoader.world :=
  {| SimLoader.pinned := []; SimLoader.declared := ["xdp_stats_map"];
     SimLoader.obj_get_fd := 7; SimLoader.create_err := 0;
     SimLoader.reuse_err := 0; SimLoader.attach_err := 0;
     SimLoader.unpin_err := 0; SimLoader.pin_err := -1 |}.

(** A world in which the monotonic clock cannot be read and nothing can be
    opened or looked up; the state is the return value of [clock_gettime]. *)
Module SimBroken.

#[global] Instance kernel : XdpStats.Kernel Z := {
  XdpStats.clock_gettime w := (w, (w, (0, 0)));
  XdpStats.bpf_map_lookup_elem w _ _ := (w, None);
  XdpStats.libbpf_num_possible_cpus w := 1;
  XdpStats.stack_room w := 8388608;
  XdpStats.open_bpf_map_file w _ _ info0 := (w, (-1, info0));
  XdpStats.close w _ := w;
  XdpStats.usleep w _ := w;
  XdpStats.sleep w _ := w;
  XdpStats.uninit_datarec w := zero_datarec
}.

End SimBroken.

(** The worlds of [SimStats] on a machine that always reports two CPUs,
    whatever the world says. *)
Module SimTwoCpus.

Definition kernel : XdpStats.Kernel SimStats.world := {|
  XdpStats.clock_gettime := XdpStats.clock_gettime (Kernel := SimStats.kernel);
  XdpStats.bpf_map_lookup_elem := XdpStats.bpf_map_lookup_elem (Kernel := SimStats.kernel);
  XdpStats.libbpf_num_possible_cpus w := 2;
  XdpStats.stack_room w := 8388608;
  XdpStats.open_bpf_map_file := XdpStats.open_bpf_map_file (Kernel := SimStats.kernel);
  XdpStats.close := XdpStats.close (Kernel := SimStats.kernel);
  XdpStats.usleep := XdpStats.usleep (Kernel := SimStats.kernel);
  XdpStats.sleep := XdpStats.sleep (Kernel := SimStats.kernel);
  XdpStats.uninit_datarec := XdpStats.uninit_datarec (Kernel := SimStats.kernel)
|}.

End SimTwoCpus.

(** The packets and the bytes of a list of per-CPU values, added up. *)
Definition sum_packets (values : list datarec) : Z :=
  foldr (fun v acc => rx_packets v + acc) 0 values.
Definition sum_bytes (values : list datarec) : Z :=
  foldr (fun v acc => rx_bytes v + acc) 0 values.

(** A per-CPU table: two CPUs, each with its own counters for every key. *)
Definition percpu_table (fd key : Z) : option (list datarec) :=
  Some [{| rx_packets := 10 + key; rx_bytes := 1000 |};
        {| rx_packets := 20; rx_bytes := 2000 + key |}].

Definition percpu_world : SimStats.world :=
  {| SimStats.now := 5000000000; SimStats.tick := 100;
     SimStats.opens := [];
     SimStats.table := percpu_table;
     SimStats.cpus := 2;
     SimStats.stack := {| rx_packets := 666; rx_bytes := 777 |} |}.

(** A world in which the map with identifier 7 is still the pinned one. *)
Definition quiet_world : SimStats.world :=
  {| SimStats.now := 5000000000; SimStats.tick := 100;
     SimStats.opens := [(3, stats_map_info 7)];
     SimStats.table := steady_table;
     SimStats.cpus := 2;
     SimStats.stack := {| rx_packets := 666; rx_bytes := 777 |} |}.

(** A world in which [libbpf_num_possible_cpus] fails (-ENOENT). *)
Definition cpuless_world : SimStats.world :=
  {| SimStats.now := 5000000000; SimStats.tick := 100;
     SimStats.opens := [];
     SimStats.table := percpu_table;
     SimStats.cpus := -2;
     SimStats.stack := {| rx_packets := 666; rx_bytes := 777 |} |}.

(** A host on which the object file cannot be loaded. *)
Definition objectless_host : SimLoader.world :=
  {| SimLoader.pinned := []; SimLoader.declared := ["xdp_stats_map"];
     SimLoader.obj_get_fd := 7; SimLoader.create_err := -2;
     SimLoader.reuse_err := 0; SimLoader.attach_err := 0;
     SimLoader.unpin_err := 0; SimLoader.pin_err := 0 |}.

(** A host whose device already carries a program (-EBUSY), with the map
    of an earlier run still pinned. *)
Definition busy_host : SimLoader.world :=
  {| SimLoader.pinned := ["/sys/fs/bpf/veth0/xdp_stats_map"];
     SimLoader.declared := ["xdp_stats_map"];
     SimLoader.obj_get_fd := 7; SimLoader.create_err := 0;
     SimLoader.reuse_err := 0; SimLoader.attach_err := -16;
     SimLoader.unpin_err := 0; SimLoader.pin_err := 0 |}.

(** A host on which the pinned map of an earlier run cannot be removed. *)
Definition sticky_host : SimLoader.world :=
  {| SimLoader.pinned := ["/sys/fs/bpf/veth0/xdp_stats_map"];
     SimLoader.declared := ["xdp_stats_map"];
     SimLoader.obj_get_fd := -1; SimLoader.create_err := 0;
     SimLoader.reuse_err := 0; SimLoader.attach_err := 0;
     SimLoader.unpin_err := -1; SimLoader.pin_err := 0 |}.

(** The same host when the pinned map can be removed. *)
Definition stale_host : SimLoader.world :=
  {| SimLoader.pinned := ["/sys/fs/bpf/veth0/xdp_stats_map"];
     SimLoader.declared := ["xdp_stats_map"];
     SimLoader.obj_get_fd := -1; SimLoader.create_err := 0;
     SimLoader.reuse_err := 0; SimLoader.attach_err := 0;
     SimLoader.unpin_err := 0; SimLoader.pin_err := 0 |}.

(** * Properties *)

(** ** The monad *)

Section MonadFacts.
Context {W : Type}.

Lemma bind_run {A B} (m : M W A) (k : A -> M W B) (w w1 w2 : W) t1 t2 a r :
  m w = (w1, t1, Ret a) ->
  k a w1 = (w2, t2, r) ->
  bind m k w = (w2, t1 ++ t2, r).
Proof. intros Hm Hk. unfold bind. rewrite Hm, Hk. reflexivity. Qed.

Lemma bind_exit {A B} (m : M W A) (k : A -> M W B) (w w1 : W) t1 c :
  m w = (w1, t1, Exit c) ->
  bind m k w = (w1, t1, Exit c).
Proof. intros Hm. unfold bind. rewrite Hm. reflexivity. Qed.

Lemma bind_inv_ret {A B} (m : M W A) (k : A -> M W B) (w w2 : W) t b :
  bind m k w = (w2, t, Ret b) ->
  exists w1 t1 t2 a,
    m w = (w1, t1, Ret a) /\ k a w1 = (w2, t2, Ret b) /\ t = t1 ++ t2.
Proof.
  unfold bind. destruct (m w) as [[w1 t1] [a | c | |]]; try discriminate.
  destruct (k a w1) as [[w2' t2] r2] eqn:Hk. intros [= -> <- ->].
  exists w1, t1, t2, a. auto.
Qed.

End MonadFacts.

(** ** The reporter: printing *)

Section PrintFacts.
Import XdpStats.
Context `{Common} {W : Type} `{!Kernel W}.

Lemma u64_range z : 0 <= u64 z < 2 ^ 64.
Proof. unfold u64. apply Z.mod_pos_bound. lia. Qed.

(** The period compares equal to zero exactly when the two timestamps are
    equal (as [__u64]). *)
Lemma calc_period_zero (r p : record) :
  d_is_zero (calc_period r p) = true <-> u64 (timestamp r - timestamp p) = 0.
Proof.
  unfold calc_period. pose proof (u64_range (timestamp r - timestamp p)) as Hr.
  destruct (0 <? u64 (timestamp r - timestamp p)) eqn:Hpos.
  - apply Z.ltb_lt in Hpos. cbn [d_is_zero].
    destruct (u64 (timestamp r - timestamp p) =? 0) eqn:Hz.
    + apply Z.eqb_eq in Hz. lia.
    + cbn. split; [discriminate | lia].
  - apply Z.ltb_ge in Hpos. split; [lia | reflexivity].
Qed.

Lemma fdiv_nonzero (a b : double) (w : W) :
  d_is_zero b = false -> fdiv a b w = (w, [], Ret (D_div a b)).
Proof. intros Hb. unfold fdiv. rewrite Hb. reflexivity. Qed.

Lemma stats_print_rows_spec (n i : nat) (stats_rec stats_prev : stats_record) (w : W) :
  exists k : nat,
    (k <= n)%nat /\
    stats_print_rows n i stats_rec stats_prev w
      = (w, report_row stats_rec stats_prev <$> seq i k, Ret (bool_decide (k = n))) /\
    (forall j, (i <= j < i + k)%nat -> elapsed stats_rec stats_prev j <> 0) /\
    ((k < n)%nat -> elapsed stats_rec stats_prev (i + k) = 0).
Proof.
  revert i. induction n as [| n IH]; intros i.
  - exists 0%nat. cbn. repeat split; auto; lia.
  - cbn [stats_print_rows].
    destruct (d_is_zero (calc_period (stats_rec !!! i) (stats_prev !!! i))) eqn:Hp.
    + exists 0%nat. cbn. rewrite Nat.add_0_r. repeat split; auto; try lia.
      intros _. apply calc_period_zero. exact Hp.
    + destruct (IH (S i)) as (k & Hk & Hrun & Hnz & Hz).
      exists (S k). split; [lia |]. split; [| split].
      * erewrite bind_run; [| apply fdiv_nonzero; exact Hp | ].
        2:{ erewrite bind_run; [| apply fdiv_nonzero; exact Hp | ].
            2:{ erewrite bind_run; [| apply fdiv_nonzero; reflexivity | ].
                2:{ erewrite bind_run; [| reflexivity | exact Hrun ]. reflexivity. }
                reflexivity. }
            reflexivity. }
        rewrite (bool_decide_ext (S k = S n) (k = n)) by lia. reflexivity.
      * intros j Hj. destruct (decide (j = i)) as [-> | Hne].
        -- intros Hzero. apply calc_period_zero in Hzero. congruence.
        -- apply Hnz. lia.
      * intros Hlt. replace (i + S k)%nat with (S i + k)%nat by lia.
        apply Hz. lia.
Qed.

(** C8, as the code has it. [stats_print] never divides by a zero period:
    for every pair of snapshots it ends normally. It writes the header
    first; then, outcome by outcome, it returns at the first outcome whose
    elapsed period is zero, without a row and without a rate division for
    that outcome or any later one and without the closing line; the
    outcomes before it have their rows. *)
Theorem stats_print_skips_zero_period
  (stats_rec stats_prev : stats_record) (w : W) :
  exists k : nat,
    (k <= XDP_ACTION_MAX)%nat /\
    stats_print stats_rec stats_prev w
      = (w,
         report_header ++ (report_row stats_rec stats_prev <$> seq 0 k)
           ++ (if bool_decide (k = XDP_ACTION_MAX) then [Stdout "\n" []] else []),
         Ret tt) /\
    (forall j, (j < k)%nat -> elapsed stats_rec stats_prev j <> 0) /\
    ((k < XDP_ACTION_MAX)%nat -> elapsed stats_rec stats_prev k = 0).
Proof.
  destruct (stats_print_rows_spec XDP_ACTION_MAX 0 stats_rec stats_prev w)
    as (k & Hk & Hrun & Hnz & Hz).
  exists k. split; [exact Hk |]. split; [| split].
  - unfold stats_print.
    destruct (bool_decide (k = XDP_ACTION_MAX)) eqn:Hall;
      (erewrite bind_run; [| reflexivity |];
       [| erewrite bind_run; [| exact Hrun |];
          [reflexivity | first [reflexivity | rewrite Hall; reflexivity]]]);
      rewrite ?app_nil_r; reflexivity.
  - intros j Hj. apply Hnz. lia.
  - exact Hz.
Qed.

(** [stats_print] always ends normally and always writes the header. *)
Lemma stats_print_runs (stats_rec stats_prev : stats_record) (w : W) :
  exists rows, stats_print stats_rec stats_prev w = (w, report_header ++ rows, Ret tt).
Proof.
  destruct (stats_print_rows_spec XDP_ACTION_MAX 0 stats_rec stats_prev w)
    as (k & _ & Hrun & _).
  unfold stats_print.
  destruct (bool_decide (k = XDP_ACTION_MAX)) eqn:Hall; eexists;
    (erewrite bind_run; [| reflexivity |];
     [| erewrite bind_run; [| exact Hrun |];
        [reflexivity | first [reflexivity | rewrite Hall; reflexivity]]]);
    reflexivity.
Qed.

End PrintFacts.

(** ** The reporter: collecting *)

Section CollectFacts.
Import XdpStats.
Context `{Common} {W : Type} `{!Kernel W}.

Lemma gettime_inv (w w1 : W) t ts :
  gettime w = (w1, t, Ret ts) ->
  omap observe t = [Tick ts].
Proof.
  unfold gettime, call_clock_gettime, call, bind.
  destruct (clock_gettime w) as [w0 [res [tv_sec tv_nsec]]].
  destruct (res <? 0); cbn; [discriminate |].
  intros [= <- <- <-]. reflexivity.
Qed.

Lemma map_get_value_array_obs (fd key : Z) (value : datarec) (w : W) :
  omap observe (trace_of (map_get_value_array fd key value w)) = [Read key]
  /\ exists v, result_of (map_get_value_array fd key value w) = Ret v.
Proof.
  unfold map_get_value_array, call_bpf_map_lookup_elem, call, bind.
  destruct (bpf_map_lookup_elem w fd key) as [w0 [vs |]]; cbn; eauto.
Qed.

Lemma map_get_value_percpu_array_obs (fd key : Z) (value v : datarec) (w w1 : W) t :
  map_get_value_percpu_array fd key value w = (w1, t, Ret v) ->
  omap observe t = [Read key].
Proof.
  unfold map_get_value_percpu_array, call_bpf_map_lookup_elem, call, bind.
  destruct (stack_room w <? _); [discriminate |].
  destruct (bpf_map_lookup_elem w fd key) as [w0 [vs |]]; cbn.
  - destruct (sum_values _); cbn. intros [= <- <- <-]. reflexivity.
  - intros [= <- <- <-]. reflexivity.
Qed.

(** One [map_collect]: the clock is read, then the key is looked up, and the
    record carries that reading. *)
Lemma map_collect_obs (fd map_type key : Z) (rec : record) (w w1 : W) t b r :
  is_array_kind map_type = true ->
  map_collect fd map_type key rec w = (w1, t, Ret (b, r)) ->
  omap observe t = [Tick (timestamp r); Read key].
Proof.
  unfold is_array_kind, map_collect. intros Hkind Hrun.
  apply bind_inv_ret in Hrun as (w0 & t1 & t2 & ts & Hts & Hrest & ->).
  apply gettime_inv in Hts. rewrite omap_app, Hts.
  destruct (map_type =? BPF_MAP_TYPE_ARRAY) eqn:Harr.
  - apply bind_inv_ret in Hrest as (w2 & t3 & t4 & v & Hv & Hret & ->).
    injection Hret as <- <- <- <-.
    destruct (map_get_value_array_obs fd key (uninit_datarec w) w0) as [Hobs _].
    rewrite Hv in Hobs. cbn in Hobs. rewrite app_nil_r, Hobs. reflexivity.
  - cbn in Hkind. rewrite Hkind in Hrest.
    apply bind_inv_ret in Hrest as (w2 & t3 & t4 & v & Hv & Hret & ->).
    injection Hret as <- <- <- <-.
    apply map_get_value_percpu_array_obs in Hv.
    rewrite app_nil_r, Hv. reflexivity.
Qed.

Lemma stats_collect_keys_spec (n key : nat) (fd map_type : Z)
  (stats_rec snap : stats_record) (w w1 : W) t :
  is_array_kind map_type = true ->
  (key + n <= length stats_rec)%nat ->
  stats_collect_keys n key fd map_type stats_rec w = (w1, t, Ret snap) ->
  omap observe t = flat_map (stamp_and_read snap) (seq key n)
  /\ length snap = length stats_rec
  /\ (forall j, (j < key)%nat -> snap !! j = stats_rec !! j).
Proof.
  intros Hkind. revert key stats_rec w t.
  induction n as [| n IH]; intros key stats_rec w t Hlen Hrun.
  - cbn in Hrun. injection Hrun as <- <- <-. auto.
  - cbn [stats_collect_keys] in Hrun.
    apply bind_inv_ret in Hrun as (w0 & t1 & t2 & [b r] & Hone & Hrest & ->).
    apply map_collect_obs in Hone; [| exact Hkind].
    cbn [snd] in Hrest.
    assert (Hlen' : (S key + n <= length (<[key := r]> stats_rec))%nat)
      by (rewrite length_insert; lia).
    destruct (IH _ _ _ _ Hlen' Hrest) as (Hobs & Hl & Hkeep).
    rewrite length_insert in Hl.
    assert (Hr : snap !!! key = r).
    { apply list_lookup_total_correct. rewrite Hkeep by lia.
      apply list_lookup_insert_eq. lia. }
    rewrite omap_app, Hone, Hobs. cbn [seq flat_map snd]. unfold stamp_and_read at 2.
    rewrite Hr. split; [reflexivity |]. split; [exact Hl |].
    intros j Hj. rewrite Hkeep by lia. apply list_lookup_insert_ne. lia.
Qed.

(** C5, as the code has it. [stats_collect] reads the clock once for every
    outcome key, each time just before the lookup of that key, and stores
    the reading in the record of that key: between the clock readings and
    the lookups of a pass that ends normally, each lookup is preceded by the
    reading that became its record's timestamp. *)
Theorem stats_collect_stamps_every_key (fd map_type : Z)
  (stats_rec snap : stats_record) (w w1 : W) (t : list event) :
  is_array_kind map_type = true ->
  length stats_rec = XDP_ACTION_MAX ->
  stats_collect fd map_type stats_rec w = (w1, t, Ret snap) ->
  omap observe t = flat_map (stamp_and_read snap) (seq 0 XDP_ACTION_MAX)
  /\ length snap = XDP_ACTION_MAX.
Proof.
  intros Hkind Hlen Hrun. unfold stats_collect in Hrun.
  apply stats_collect_keys_spec in Hrun as (Hobs & Hl & _); [| exact Hkind | lia].
  split; [exact Hobs | congruence].
Qed.

(** With an array map and a lookup that fails, [map_collect] stores in the
    record what its uninitialised local held. *)
Lemma map_collect_failed_lookup (fd key : Z) (rec : record) (w w1 : W) res tv_sec tv_nsec :
  clock_gettime w = (w1, (res, (tv_sec, tv_nsec))) ->
  0 <= res ->
  snd (bpf_map_lookup_elem w1 fd key) = None ->
  result_of (map_collect fd BPF_MAP_TYPE_ARRAY key rec w)
  = Ret (true, {| timestamp := u64 (u64 tv_sec * NANOSEC_PER_SEC + tv_nsec);
                  total := uninit_datarec w |}).
Proof.
  intros Hclock Hres Hlook.
  unfold map_collect, gettime, call_clock_gettime, map_get_value_array,
    call_bpf_map_lookup_elem, call, bind.
  rewrite Hclock. destruct (res <? 0) eqn:Hneg; [apply Z.ltb_lt in Hneg; lia |].
  cbn. destruct (bpf_map_lookup_elem w1 fd key) as [w2 r]. cbn in Hlook. subst r.
  cbn. destruct (uninit_datarec w). reflexivity.
Qed.

End CollectFacts.

(** ** The reporter: collecting, on the sample inputs *)

Lemma stats_collect_stamps_every_key_witness :
  let r := XdpStats.stats_collect (H := defines) 4 BPF_MAP_TYPE_ARRAY
             (replicate 5 zero_record) steady_world in
  exists snap,
    result_of r = Ret snap /\
    omap observe (trace_of r) = flat_map (stamp_and_read snap) (seq 0 5) /\
    length snap = 5%nat.
Proof.
  eexists. split; [vm_compute; reflexivity |].
  eapply (stats_collect_stamps_every_key (H := defines) 4 BPF_MAP_TYPE_ARRAY
            (replicate 5 zero_record) _ steady_world).
  - reflexivity.
  - reflexivity.
  - vm_compute. reflexivity.
Defined.

(** C5, as the specification has it, fails: on a clock that moves with
    every reading, the pass over the five keys reads the clock five times
    and the records of one snapshot carry different timestamps. *)
Lemma stats_collect_not_one_timestamp :
  let r := XdpStats.stats_collect (H := defines) 4 BPF_MAP_TYPE_ARRAY
             (replicate 5 zero_record) steady_world in
  exists snap,
    result_of r = Ret snap /\ ~ one_timestamp_per_pass (trace_of r) snap.
Proof.
  eexists. split; [vm_compute; reflexivity |].
  intros (t & reads & Hobs & Hreads & _).
  vm_compute in Hobs. injection Hobs as <- <-.
  destruct (Hreads (Tick 5000000100)) as [key Hkey]; [| discriminate].
  apply list_elem_of_further, list_elem_of_here.
Qed.

(** C2, on the code. The lookup of key 1 fails while the record of key 1
    holds 5 packets and 500 bytes from an earlier pass: after the pass the
    record holds what the uninitialised local of [map_collect] held (here
    666 and 777), not the earlier values. The pass itself goes on: the keys
    after the failing one are still looked up. *)
Theorem failed_lookup_clobbers_record :
  let r := XdpStats.stats_collect (H := defines) 3 BPF_MAP_TYPE_ARRAY
             (replicate 5 seen_record) lossy_world in
  exists snap,
    result_of r = Ret snap /\
    total (snap !!! 1%nat) = {| rx_packets := 666; rx_bytes := 777 |} /\
    total (snap !!! 1%nat) <> total seen_record /\
    keys_read (trace_of r) = [0; 1; 2; 3; 4].
Proof.
  eexists. split; [vm_compute; reflexivity |].
  split; [reflexivity |]. split; [discriminate | reflexivity].
Qed.

(** ** The reporter: the poll loop *)

Section PollFacts.
Import XdpStats.
Context `{Common} {W : Type} `{!Kernel W}.
Variables (pin_dir mapname : string) (map_expect : bpf_map_info) (interval : Z).

Lemma open_check_open_fails (info0 inf : bpf_map_info) (w w1 : W) (fd : Z) :
  open_bpf_map_file w pin_dir mapname info0 = (w1, (fd, inf)) ->
  fd < 0 ->
  open_check_bpf_map_file pin_dir mapname map_expect info0 w
  = (w1,
     [Call "open_bpf_map_file" [AStr pin_dir; AStr mapname] fd;
      Stderr "ERR: open_bpf_map_file failed for %s/%s\n" [AStr pin_dir; AStr mapname]],
     Ret (EXIT_FAIL_BPF, (fd, inf))).
Proof.
  intros Hopen Hfd.
  unfold open_check_bpf_map_file, call_open_bpf_map_file, call, bind.
  rewrite Hopen. apply Z.ltb_lt in Hfd. rewrite Hfd. reflexivity.
Qed.

Lemma open_check_mismatch (info0 inf : bpf_map_info) (w w1 : W) (fd : Z) :
  open_bpf_map_file w pin_dir mapname info0 = (w1, (fd, inf)) ->
  0 <= fd ->
  check_map_fd_info inf map_expect <> 0 ->
  open_check_bpf_map_file pin_dir mapname map_expect info0 w
  = (w1,
     [Call "open_bpf_map_file" [AStr pin_dir; AStr mapname] fd;
      Stderr "ERR: map via FD not compatible\n" []],
     Ret (check_map_fd_info inf map_expect, (fd, inf))).
Proof.
  intros Hopen Hfd Hcheck.
  unfold open_check_bpf_map_file, call_open_bpf_map_file, call, bind.
  rewrite Hopen. apply Z.ltb_ge in Hfd. rewrite Hfd.
  apply Z.eqb_neq in Hcheck. rewrite Hcheck. reflexivity.
Qed.

(** The inner [while]: whatever makes its condition true, the body logs,
    waits and the loop is back at its condition. *)
Lemma reopen_step_retries (st : poll_state) (w w1 : W) t1 err fd inf :
  open_check_bpf_map_file pin_dir mapname map_expect (info st) w
    = (w1, t1, Ret (err, (fd, inf))) ->
  err = EXIT_FAIL_BPF \/ err <> EXIT_OK ->
  poll_step pin_dir mapname map_expect interval Reopen st w
  = (usleep w1 (1000000 / 4), t1 ++ backoff, Ret (Reopen, reopened st fd inf)).
Proof.
  intros Hopen Herr. cbn [poll_step].
  assert (Hcond : (err =? EXIT_FAIL_BPF) || negb (err =? EXIT_OK) = true).
  { destruct Herr as [-> | Hne].
    - rewrite Z.eqb_refl. reflexivity.
    - apply Z.eqb_neq in Hne. rewrite Hne. apply orb_true_r. }
  erewrite bind_run; [reflexivity | exact Hopen |].
  cbn beta iota. rewrite Hcond. reflexivity.
Qed.

Lemma calls_app (fn : string) (t1 t2 : list event) :
  calls fn (t1 ++ t2) = (calls fn t1 + calls fn t2)%nat.
Proof. unfold calls. rewrite filter_app, length_app. reflexivity. Qed.

Lemma complaints_app (fmt : string) (t1 t2 : list event) :
  complaints fmt (t1 ++ t2) = (complaints fmt t1 + complaints fmt t2)%nat.
Proof. unfold complaints. rewrite filter_app, length_app. reflexivity. Qed.

(** C6. However many times in a row the pinned map cannot be opened, the
    poll loop neither returns nor exits: after [n] failures it has logged
    and backed off (a quarter of a second) [n] times, it is again at the
    open, and its snapshot is untouched. *)
Theorem open_failures_are_retried (n : nat) (st : poll_state) (w : W) :
  opens_fail n pin_dir mapname w (info st) ->
  exists (w' : W) (fds : list Z) (st' : poll_state),
    length fds = n /\
    Forall (fun fd => fd < 0) fds /\
    poll_run n pin_dir mapname map_expect interval Reopen st w
      = (w', flat_map (failed_open pin_dir mapname) fds, Ret (Reopen, st')) /\
    record_ st' = record_ st.
Proof.
  revert st w. induction n as [| n IH]; intros st w Hfail.
  - exists w, [], st. repeat split; auto.
  - cbn [opens_fail] in Hfail.
    destruct (open_bpf_map_file w pin_dir mapname (info st)) as [w1 [fd inf]] eqn:Hopen.
    destruct Hfail as [Hfd Hfail].
    destruct (IH (reopened st fd inf) _ Hfail) as (w' & fds & st' & Hlen & Hall & Hrun & Hrec).
    exists w', (fd :: fds), st'. split; [cbn; lia |]. split; [constructor; assumption |].
    split; [| exact Hrec].
    cbn [poll_run flat_map]. unfold failed_open at 1.
    eapply bind_run;
      [eapply reopen_step_retries;
         [apply open_check_open_fails; eassumption | left; reflexivity]
      | exact Hrun].
Qed.

(** C10. Every result of the open-and-validate call other than success is
    retried in the loop, the shape mismatch like the failure to open: as
    long as the attempts are refused, the loop stays at the open, and after
    [n] refusals it has made [n] attempts, logged [n] times that the map is
    still reloading and backed off [n] times, without returning or exiting. *)
Theorem refused_reopen_is_retried (n : nat) (st : poll_state) (w : W) :
  reopen_refused n pin_dir mapname map_expect w (info st) ->
  exists (w' : W) (tr : list event) (st' : poll_state),
    poll_run n pin_dir mapname map_expect interval Reopen st w
      = (w', tr, Ret (Reopen, st')) /\
    calls "open_bpf_map_file" tr = n /\
    complaints "ERR: map still reloading\n" tr = n /\
    calls "usleep" tr = n /\
    calls "sleep" tr = 0%nat /\
    record_ st' = record_ st.
Proof.
  revert st w. induction n as [| n IH]; intros st w Hrefused.
  - exists w, [], st. repeat split; auto.
  - cbn [reopen_refused] in Hrefused.
    destruct (open_bpf_map_file w pin_dir mapname (info st)) as [w1 [fd inf]] eqn:Hopen.
    destruct Hrefused as [Hwhy Hrefused].
    destruct (IH (reopened st fd inf) _ Hrefused)
      as (w' & tr & st' & Hrun & Hopens & Hlogs & Hsleeps & Hnone & Hrec).
    destruct Hwhy as [Hfd | [Hfd Hshape]].
    + eexists w', _, st'. split.
      { cbn [poll_run].
        eapply bind_run;
          [eapply reopen_step_retries;
             [apply open_check_open_fails; eassumption | left; reflexivity]
          | exact Hrun]. }
      rewrite !calls_app, !complaints_app, Hopens, Hlogs, Hsleeps, Hnone.
      repeat split; auto.
    + eexists w', _, st'. split.
      { cbn [poll_run].
        eapply bind_run;
          [eapply reopen_step_retries;
             [apply open_check_mismatch; eassumption | right; exact Hshape]
          | exact Hrun]. }
      rewrite !calls_app, !complaints_app, Hopens, Hlogs, Hsleeps, Hnone.
      repeat split; auto.
Qed.

(** At startup the same mismatch ends the reporter: [main] returns the
    error of the shape check. *)
Lemma startup_returns_on_mismatch (n : nat) (cfg : config) (w w1 : W) fd inf :
  let pin_dir := snd (snprintf PATH_MAX (pin_basedir +:+ "/" +:+ ifname cfg)) in
  let expect := {| type := 0; id := 0; name := ""; key_size := 4; value_size := 16;
                   max_entries := Z.of_nat XDP_ACTION_MAX |} in
  ifindex cfg <> -1 ->
  open_bpf_map_file w pin_dir "xdp_stats_map" zero_info = (w1, (fd, inf)) ->
  0 <= fd ->
  check_map_fd_info inf expect <> 0 ->
  result_of (main n cfg w) = Ret (Returned (check_map_fd_info inf expect)).
Proof.
  intros pd expect Hdev Hopen Hfd Hshape. unfold main.
  apply Z.eqb_neq in Hdev. rewrite Hdev.
  unfold snprintf. cbn [fst snd].
  destruct (Z.of_nat _ <? 0) eqn:Hlen; [apply Z.ltb_lt in Hlen; lia |].
  unfold bind at 1.
  unfold open_check_bpf_map_file, call_open_bpf_map_file, call, bind at 1.
  unfold pd, snprintf in Hopen. cbn [fst snd] in Hopen. rewrite Hopen.
  apply Z.ltb_ge in Hfd. rewrite Hfd.
  pose proof Hshape as Hne. apply Z.eqb_neq in Hne. fold expect. rewrite Hne.
  cbn. fold expect. unfold EXIT_OK. rewrite Hne. reflexivity.
Qed.

(** C1, as the code has it. When the re-opened map has another identifier
    than the recorded one, the round takes a fresh baseline from the new
    map, waits the settle delay, and then goes on in the same round: it
    takes a second snapshot and prints the report of it against that fresh
    baseline, which is also what it keeps as the previous snapshot. *)
Theorem reload_round_reports_against_fresh_baseline
  (st : poll_state) (w w1 w2 w3 : W) (t1 t2 t3 : list event)
  (fd : Z) (inf : bpf_map_info) (baseline collected : stats_record) :
  EXIT_FAIL_BPF <> EXIT_OK ->
  open_check_bpf_map_file pin_dir mapname map_expect (info st) w
    = (w1, t1, Ret (EXIT_OK, (fd, inf))) ->
  id inf <> map_id_prev st ->
  stats_collect fd (type inf) (record_ st) w1 = (w2, t2, Ret baseline) ->
  stats_collect fd (type inf) baseline (usleep w2 (1000000 / 4)) = (w3, t3, Ret collected) ->
  exists rows,
    stats_print collected baseline w3 = (w3, report_header ++ rows, Ret tt) /\
    poll_step pin_dir mapname map_expect interval Reopen st w
    = (sleep w3 interval,
       t1 ++ [Stderr " - ERR: map reloaded\n" []] ++ t2
          ++ [Call "usleep" [AInt 250000] 0] ++ t3
          ++ (report_header ++ rows) ++ [Call "sleep" [AInt interval] 0],
       Ret (LoopTop,
            {| map_fd := fd; info := inf; map_id := id inf; map_id_prev := id inf;
               map_type := type inf; record_ := collected; prev := baseline |})).
Proof.
  intros Hcodes Hopen Hid Hbase Hcoll.
  destruct (stats_print_runs collected baseline w3) as [rows Hprint].
  exists rows. split; [exact Hprint |].
  cbn [poll_step].
  erewrite bind_run; [reflexivity | exact Hopen |].
  cbn beta iota.
  assert (Hcond : (EXIT_OK =? EXIT_FAIL_BPF) || negb (EXIT_OK =? EXIT_OK) = false).
  { unfold EXIT_OK in *. destruct (0 =? EXIT_FAIL_BPF) eqn:Hsame.
    - apply Z.eqb_eq in Hsame. congruence.
    - reflexivity. }
  rewrite Hcond. unfold poll_report. cbn [map_id_prev map_id map_fd info record_].
  assert (Hne : negb (map_id_prev st =? id inf) = true).
  { apply negb_true_iff, Z.eqb_neq. congruence. }
  rewrite Hne.
  unfold bind, fprintf_stderr, emit, call_usleep, call_sleep, call, ret.
  rewrite Hbase. cbn [map_id_prev map_id map_fd info record_ map_type prev].
  rewrite Hcoll, Hprint.
  rewrite <- !app_assoc, ?app_nil_r. reflexivity.
Qed.

End PollFacts.

(** ** The reporter: the poll loop, on the sample inputs *)

Lemma open_failures_are_retried_witness :
  exists (w' : SimStats.world) (fds : list Z) (st' : XdpStats.poll_state),
    length fds = 3%nat /\
    Forall (fun fd => fd < 0) fds /\
    XdpStats.poll_run (H := defines) 3 "/sys/fs/bpf/veth0" "xdp_stats_map"
                      reporter_expect 2 XdpStats.Reopen polling_state dead_world
      = (w', flat_map (failed_open "/sys/fs/bpf/veth0" "xdp_stats_map") fds,
         Ret (XdpStats.Reopen, st')) /\
    XdpStats.record_ st' = XdpStats.record_ polling_state.
Proof.
  apply (open_failures_are_retried (H := defines)).
  cbn. repeat split; reflexivity.
Defined.

Lemma refused_reopen_is_retried_witness :
  exists (w' : SimStats.world) (tr : list event) (st' : XdpStats.poll_state),
    XdpStats.poll_run (H := defines) 2 "/sys/fs/bpf/veth0" "xdp_stats_map"
                      reporter_expect 2 XdpStats.Reopen polling_state reloading_world
      = (w', tr, Ret (XdpStats.Reopen, st')) /\
    calls "open_bpf_map_file" tr = 2%nat /\
    complaints "ERR: map still reloading\n" tr = 2%nat /\
    calls "usleep" tr = 2%nat /\
    calls "sleep" tr = 0%nat /\
    XdpStats.record_ st' = XdpStats.record_ polling_state.
Proof.
  apply (refused_reopen_is_retried (H := defines)).
  cbn. split.
  - right. split; [lia | discriminate].
  - split; [left; lia | exact I].
Defined.

Lemma reload_round_reports_against_fresh_baseline_witness :
  exists w' tr st',
    XdpStats.poll_step (H := defines) "/sys/fs/bpf/veth0" "xdp_stats_map"
                       reporter_expect 2 XdpStats.Reopen polling_state steady_world
      = (w', tr, Ret (XdpStats.LoopTop, st')) /\
    XdpStats.map_id st' = 8 /\
    Forall (fun r => rx_packets (total r) <> 5) (XdpStats.prev st').
Proof.
  pose (baseline := map (fun k => {| timestamp := 5000000000 + 100 * k;
                                     total := {| rx_packets := 40 + k;
                                                 rx_bytes := 1000 * k |} |})
                        [0; 1; 2; 3; 4]).
  pose (collected := map (fun k => {| timestamp := 5250000500 + 100 * k;
                                      total := {| rx_packets := 40 + k;
                                                  rx_bytes := 1000 * k |} |})
                         [0; 1; 2; 3; 4]).
  pose (r1 := XdpStats.open_check_bpf_map_file (H := defines)
                "/sys/fs/bpf/veth0" "xdp_stats_map" reporter_expect
                (stats_map_info 7) steady_world).
  pose (r2 := XdpStats.stats_collect (H := defines) 4 BPF_MAP_TYPE_ARRAY
                (replicate 5 seen_record) (world_of r1)).
  pose (r3 := XdpStats.stats_collect (H := defines) 4 BPF_MAP_TYPE_ARRAY
                baseline (XdpStats.usleep (world_of r2) (1000000 / 4))).
  destruct (reload_round_reports_against_fresh_baseline (H := defines)
              "/sys/fs/bpf/veth0" "xdp_stats_map" reporter_expect 2
              polling_state steady_world
              (world_of r1) (world_of r2) (world_of r3)
              (trace_of r1) (trace_of r2) (trace_of r3)
              4 (stats_map_info 8) baseline collected)
    as (rows & _ & Hstep).
  - discriminate.
  - vm_compute. reflexivity.
  - discriminate.
  - vm_compute. reflexivity.
  - vm_compute. reflexivity.
  - eexists _, _, _. split; [exact Hstep |]. split; [reflexivity |].
    repeat constructor; discriminate.
Defined.

(** C1, as the specification has it, fails: in the round in which the map
    with identifier 8 is found in place of the map with identifier 7, the
    reporter prints a report. *)
Lemma reload_round_is_not_silent :
  ~ reload_round_is_silent (H := defines) "/sys/fs/bpf/veth0" "xdp_stats_map"
      reporter_expect 2 polling_state steady_world.
Proof.
  intros Hsilent.
  specialize (Hsilent
    (world_of (XdpStats.open_check_bpf_map_file (H := defines)
                 "/sys/fs/bpf/veth0" "xdp_stats_map" reporter_expect
                 (stats_map_info 7) steady_world))
    (trace_of (XdpStats.open_check_bpf_map_file (H := defines)
                 "/sys/fs/bpf/veth0" "xdp_stats_map" reporter_expect
                 (stats_map_info 7) steady_world))
    4 (stats_map_info 8)).
  assert (Hlines : report_lines
            (trace_of (XdpStats.poll_step (H := defines) "/sys/fs/bpf/veth0"
                         "xdp_stats_map" reporter_expect 2 XdpStats.Reopen
                         polling_state steady_world)) = []).
  { apply Hsilent; [vm_compute; reflexivity | discriminate]. }
  vm_compute in Hlines. discriminate.
Qed.

(** ** The loader *)

Section LoaderFacts.
Import XdpLoader.
Context `{Common} {W : Type} `{!Kernel W}.

Lemma snprintf_nonneg (size : nat) (text : string) :
  (fst (snprintf size text) <? 0) = false.
Proof. unfold snprintf. cbn [fst]. apply Z.ltb_ge. lia. Qed.

(** Neither [snprintf] of the loader can fail: the paths are the buffers. *)
Ltac name_paths subdir :=
  pose proof (snprintf_nonneg PATH_MAX (pin_basedir +:+ "/" +:+ subdir)) as Hlen_dir;
  pose proof (snprintf_nonneg PATH_MAX
                (pin_basedir +:+ "/" +:+ subdir +:+ "/" +:+ map_name)) as Hlen_path;
  unfold pin_dir_of, pin_path_of in *;
  destruct (snprintf PATH_MAX (pin_basedir +:+ "/" +:+ subdir)) as [len_dir pin_dir];
  destruct (snprintf PATH_MAX (pin_basedir +:+ "/" +:+ subdir +:+ "/" +:+ map_name))
    as [len_path pin_path];
  cbn [fst snd] in *.

Ltac unfold_calls :=
  unfold call_access, call_bpf_obj_get, call_find_map_by_name, call_reuse_fd,
    call_unpin_maps, call_pin_maps, call_create, call_attach, call_program_close,
    call_close, when_verbose, error_exit, call, bind, ret, printf, fprintf_stderr,
    emit in *.

(** C9. When nothing exists at the pin path of the device, the pin step
    calls no unpin at all and goes straight to [bpf_object__pin_maps]: the
    absence is not an error, and the result of the step is the result of
    the pinning alone. *)
Theorem pin_with_nothing_to_unpin (bpf_obj : bpf_object) (subdir : string) (w w1 : W) :
  access w (pin_path_of subdir) = (w1, -1) ->
  let '(w2, err) := bpf_object__pin_maps w1 bpf_obj (pin_dir_of subdir) in
  pin_maps_in_bpf_object bpf_obj subdir w
  = (w2,
     [Call "access" [AStr (pin_path_of subdir)] (-1)]
       ++ (if verbose
           then [Stdout " - Pinning maps in %s/\n" [AStr (pin_dir_of subdir)]]
           else [])
       ++ [Call "bpf_object__pin_maps" [AStr (pin_dir_of subdir)] err]
       ++ (if err =? 0 then [Stdout "Leaving pin_maps_in_bpf_object...\n" []] else []),
     Ret (if err =? 0 then 0 else EXIT_FAIL_BPF))
  /\ calls "bpf_object__unpin_maps"
           (trace_of (pin_maps_in_bpf_object bpf_obj subdir w)) = 0%nat.
Proof.
  intros Haccess. unfold pin_maps_in_bpf_object. name_paths subdir.
  rewrite Hlen_dir, Hlen_path. unfold_calls. rewrite Haccess. cbn [negb Z.eqb].
  destruct (bpf_object__pin_maps w1 bpf_obj pin_dir) as [w2 err] eqn:Hpin.
  destruct verbose; cbn; rewrite Hpin; destruct (err =? 0); cbn; split; reflexivity.
Qed.

(** C3, as the code has it. [reuse_pinned_map] gives its fatal result in
    two cases, both after the pinned object was found and opened: the map
    name is not declared by the program, or [bpf_map__reuse_fd] fails. An
    absent pin path and a failed open give 0. *)
Theorem reuse_pinned_map_fatal_cases (bpf_obj : bpf_object) (subdir : string)
  (w w1 w2 : W) (a fd : Z) :
  access w (pin_path_of subdir) = (w1, a) ->
  bpf_obj_get w1 (pin_path_of subdir) = (w2, fd) ->
  (result_of (reuse_pinned_map bpf_obj subdir w) = Ret (-1) <->
   a = 0 /\ 0 <= fd /\
   (bpf_object__find_map_by_name w2 bpf_obj map_name = None \/
    exists map, bpf_object__find_map_by_name w2 bpf_obj map_name = Some map /\
                snd (bpf_map__reuse_fd w2 map fd) <> 0))
  /\ (a <> 0 \/ fd < 0 -> result_of (reuse_pinned_map bpf_obj subdir w) = Ret 0).
Proof.
  intros Haccess Hget. unfold reuse_pinned_map. name_paths subdir.
  rewrite Hlen_path. unfold_calls. rewrite Haccess.
  destruct (a =? 0) eqn:Ha; cbn [negb].
  2:{ apply Z.eqb_neq in Ha.
      destruct verbose; cbn; (split; [split | intros _; reflexivity]);
        solve [discriminate | intros (Ha0 & _); contradiction]. }
  apply Z.eqb_eq in Ha. rewrite Hget.
  destruct (fd <? 0) eqn:Hfd.
  { apply Z.ltb_lt in Hfd.
    destruct verbose; cbn; (split; [split | intros _; reflexivity]);
      solve [discriminate | intros (_ & Hfd0 & _); lia]. }
  apply Z.ltb_ge in Hfd.
  assert (Hopened : a <> 0 \/ fd < 0 -> False) by lia.
  destruct (bpf_object__find_map_by_name w2 bpf_obj map_name) as [map |] eqn:Hfind.
  - destruct (bpf_map__reuse_fd w2 map fd) as [w3 err] eqn:Hreuse.
    destruct (err =? 0) eqn:Herr; cbn [negb].
    + apply Z.eqb_eq in Herr. subst err.
      destruct verbose; cbn; rewrite Hfind; cbn; rewrite Hreuse; cbn;
        (split; [split | intros Hno; destruct (Hopened Hno)]);
        solve [discriminate
              | intros (_ & _ & [Hnone | (m & Hm & Hbad)]);
                [discriminate Hnone
                | injection Hm as <-; rewrite Hreuse in Hbad; cbn in Hbad;
                  congruence]].
    + apply Z.eqb_neq in Herr.
      destruct verbose; cbn; rewrite Hfind; cbn; rewrite Hreuse; cbn;
        apply Z.eqb_neq in Herr; rewrite Herr; apply Z.eqb_neq in Herr; cbn;
        (split; [split | intros Hno; destruct (Hopened Hno)]);
        solve [reflexivity
              | intros _; repeat split; auto; right; exists map;
                rewrite Hreuse; auto].
  - destruct verbose; cbn; rewrite Hfind; cbn;
      (split; [split | intros Hno; destruct (Hopened Hno)]);
      solve [reflexivity | intros _; repeat split; auto].
Qed.

(** What [reuse_pinned_map] leaves in the trace: no pinning, and a
    successful [bpf_map__reuse_fd] exactly when it returns 1. *)
Lemma reuse_pinned_map_trace (bpf_obj : bpf_object) (subdir : string) (w : W) :
  exists w' tr r,
    reuse_pinned_map bpf_obj subdir w = (w', tr, Ret r) /\
    pinned_by_this_run tr = false /\
    pin_step_failed tr = false /\
    ((r = 1 /\ reused_prior_pin tr = true) \/
     ((r = 0 \/ r = -1) /\ reused_prior_pin tr = false)).
Proof.
  unfold reuse_pinned_map. name_paths subdir. rewrite Hlen_path. unfold_calls.
  destruct (access w pin_path) as [w1 a].
  destruct (a =? 0); cbn [negb].
  2:{ destruct verbose; cbn; eexists _, _, _; (split; [reflexivity |]); cbn; intuition (auto; discriminate). }
  destruct (bpf_obj_get w1 pin_path) as [w2 fd].
  destruct (fd <? 0).
  { destruct verbose; cbn; eexists _, _, _; (split; [reflexivity |]); cbn; intuition (auto; discriminate). }
  destruct (bpf_object__find_map_by_name w2 bpf_obj map_name) as [map |] eqn:Hfind.
  - destruct (bpf_map__reuse_fd w2 map fd) as [w3 err] eqn:Hreuse.
    destruct err; destruct verbose; cbn; rewrite Hfind; cbn; rewrite Hreuse; cbn;
      eexists _, _, _; (split; [reflexivity |]); cbn; intuition (auto; discriminate).
  - destruct verbose; cbn; rewrite Hfind; cbn; eexists _, _, _;
      (split; [reflexivity |]); cbn; intuition (auto; discriminate).
Qed.

(** What [pin_maps_in_bpf_object] leaves in the trace: no reuse, and a
    successful [bpf_object__pin_maps] unless its unpin or its pin failed. *)
Lemma pin_maps_in_bpf_object_trace (bpf_obj : bpf_object) (subdir : string) (w : W) :
  exists w' tr r,
    pin_maps_in_bpf_object bpf_obj subdir w = (w', tr, Ret r) /\
    reused_prior_pin tr = false /\
    (pin_step_failed tr = false -> pinned_by_this_run tr = true).
Proof.
  unfold pin_maps_in_bpf_object. name_paths subdir. rewrite Hlen_dir, Hlen_path.
  unfold_calls.
  destruct (access w pin_path) as [w1 a].
  destruct (a =? -1); cbn [negb].
  - destruct (bpf_object__pin_maps w1 bpf_obj pin_dir) as [w2 err] eqn:Hpin.
    destruct err; destruct verbose; cbn; rewrite Hpin; cbn;
      eexists _, _, _; (split; [reflexivity |]); cbn; intuition (auto; discriminate).
  - destruct (bpf_object__unpin_maps w1 bpf_obj pin_dir) as [w2 uerr] eqn:Hunpin.
    destruct uerr.
    + destruct (bpf_object__pin_maps w2 bpf_obj pin_dir) as [w3 err] eqn:Hpin.
      destruct err; destruct verbose; cbn; rewrite Hunpin; cbn; rewrite Hpin; cbn;
        eexists _, _, _; (split; [reflexivity |]); cbn; intuition (auto; discriminate).
    + destruct verbose; cbn; rewrite Hunpin; cbn;
        eexists _, _, _; (split; [reflexivity |]); cbn; intuition (auto; discriminate).
    + destruct verbose; cbn; rewrite Hunpin; cbn;
        eexists _, _, _; (split; [reflexivity |]); cbn; intuition (auto; discriminate).
Qed.

(** C4. After an attach sequence that ends with a program handle and in
    which the pin step did not fail, exactly one of the two holds: the
    table was pinned by this run, or it was reused from a prior pin. *)
Theorem pinned_or_reused_never_both (cfg : config) (w w' : W) (tr : list event)
  (program : xdp_program) :
  load_bpf_and_xdp_attach_with_reuse cfg w = (w', tr, Ret (Some program)) ->
  pin_step_failed tr = false ->
  xorb (pinned_by_this_run tr) (reused_prior_pin tr) = true.
Proof.
  unfold load_bpf_and_xdp_attach_with_reuse.
  unfold call_create, call, bind at 1.
  destruct (xdp_program__create w (filename cfg) (progname cfg)) as [w1 prog].
  destruct (libxdp_get_error prog =? 0); cbn [negb].
  2:{ unfold_calls. cbn. discriminate. }
  unfold bind at 1.
  destruct (reuse_pinned_map_trace (xdp_program__bpf_obj prog) (ifname cfg) w1)
    as (w2 & t2 & r & -> & Hnopin & Hnofail & Hreuse).
  destruct (xdp_program__attach w2 prog (ifindex cfg) (attach_mode cfg) 0)
    as [w3 aerr] eqn:Hattach.
  destruct (pin_maps_in_bpf_object_trace (xdp_program__bpf_obj prog) (ifname cfg) w3)
    as (w4 & t4 & e & Hpin & Hnoreuse & Hpinned).
  unfold pinned_by_this_run, reused_prior_pin, pin_step_failed in *.
  destruct Hreuse as [[-> Hreused] | [[-> | ->] Hnot]];
    cbv beta zeta delta [bind call_attach call]; cbn [Z.ltb Z.compare Z.eqb].
  - rewrite Hattach. destruct (aerr =? 0); cbn [negb].
    2:{ unfold_calls. cbn. discriminate. }
    unfold_calls. destruct verbose; cbn; intros [= <- <- <-] _;
      repeat (first [rewrite existsb_app | progress cbn]);
      rewrite Hnopin, Hreused; reflexivity.
  - rewrite Hattach. destruct (aerr =? 0); cbn [negb].
    2:{ unfold_calls. cbn. discriminate. }
    rewrite Hpin.
    unfold_calls. destruct (e =? 0); cbn; intros [= <- <- <-] Hfail;
      repeat (first [rewrite existsb_app in Hfail | progress cbn in Hfail]);
      repeat (first [rewrite existsb_app | progress cbn]);
      repeat match goal with
             | Hx : _ || _ = false |- _ => apply orb_false_iff in Hx; destruct Hx
             end;
      rewrite ?Hnopin, ?Hnot, ?Hnoreuse, ?Hpinned by assumption; reflexivity.
  - unfold_calls. cbn. discriminate.
Qed.

(** C7. When the table was not reused, the attach succeeded and the pin
    step then fails, the loader reports it ("ERR: pinning maps") and still
    returns the program handle, without closing the program; [main] ends
    with [EXIT_OK]. *)
Theorem pin_failure_keeps_program_attached (cfg : config) (w w1 w2 w3 w4 : W)
  (program : xdp_program) (t2 t4 : list event) (e : Z) :
  ifindex cfg <> -1 ->
  xdp_program__create w (filename cfg) (progname cfg) = (w1, program) ->
  libxdp_get_error program = 0 ->
  reuse_pinned_map (xdp_program__bpf_obj program) (ifname cfg) w1 = (w2, t2, Ret 0) ->
  xdp_program__attach w2 program (ifindex cfg) (attach_mode cfg) 0 = (w3, 0) ->
  pin_maps_in_bpf_object (xdp_program__bpf_obj program) (ifname cfg) w3
    = (w4, t4, Ret e) ->
  e <> 0 ->
  load_bpf_and_xdp_attach_with_reuse cfg w
  = (w4,
     [Call "xdp_program__create" [AStr (filename cfg); AStr (progname cfg)] 0]
       ++ t2
       ++ [Call "xdp_program__attach" [AInt (ifindex cfg); AInt (attach_mode cfg); AInt 0] 0]
       ++ t4
       ++ [Stderr "ERR: pinning maps\n" [];
           Stdout "Leaving load_bpf_and_xdp_attach_with_reuse...\n" []],
     Ret (Some program))
  /\ result_of (main cfg w) = Ret EXIT_OK.
Proof.
  intros Hdev Hcreate Hnoerr Hreuse Hattach Hpin He.
  assert (Hload : load_bpf_and_xdp_attach_with_reuse cfg w
    = (w4,
       [Call "xdp_program__create" [AStr (filename cfg); AStr (progname cfg)] 0]
         ++ t2
         ++ [Call "xdp_program__attach"
                  [AInt (ifindex cfg); AInt (attach_mode cfg); AInt 0] 0]
         ++ t4
         ++ [Stderr "ERR: pinning maps\n" [];
             Stdout "Leaving load_bpf_and_xdp_attach_with_reuse...\n" []],
       Ret (Some program))).
  { unfold load_bpf_and_xdp_attach_with_reuse.
    unfold call_create, call_attach, call, bind. rewrite Hcreate, Hnoerr. cbn [Z.eqb negb].
    rewrite Hreuse. cbn [Z.ltb Z.compare Z.eqb]. rewrite Hattach. cbn [Z.eqb negb].
    rewrite Hpin. apply Z.eqb_neq in He. rewrite He. cbn.
    rewrite <- !app_assoc. reflexivity. }
  split; [exact Hload |].
  unfold main. apply Z.eqb_neq in Hdev. rewrite Hdev.
  unfold bind at 1. rewrite Hload. destruct verbose; reflexivity.
Qed.

End LoaderFacts.

(** ** The loader, on the sample inputs *)

Lemma pin_with_nothing_to_unpin_witness :
  exists w' tr,
    XdpLoader.pin_maps_in_bpf_object (H := defines) (Kernel0 := SimLoader.kernel)
                                     tt "veth0" fresh_host
      = (w', tr, Ret 0) /\
    calls "bpf_object__unpin_maps" tr = 0%nat /\
    calls "bpf_object__pin_maps" tr = 1%nat.
Proof.
  pose proof (pin_with_nothing_to_unpin (H := defines) (Kernel0 := SimLoader.kernel)
                tt "veth0" fresh_host fresh_host eq_refl) as Hpin.
  vm_compute in Hpin. destruct Hpin as [Hrun _].
  eexists _, _. split; [vm_compute; exact Hrun |]. split; reflexivity.
Defined.

Lemma reuse_pinned_map_fatal_cases_witness :
  result_of (XdpLoader.reuse_pinned_map (H := defines) (Kernel0 := SimLoader.kernel)
                                        tt "veth0" stubborn_host) = Ret (-1)
  /\ XdpLoader.bpf_object__find_map_by_name stubborn_host tt map_name
     = Some "xdp_stats_map".
Proof.
  destruct (reuse_pinned_map_fatal_cases (H := defines) (Kernel0 := SimLoader.kernel)
              tt "veth0" stubborn_host stubborn_host stubborn_host 0 7
              eq_refl eq_refl) as [[_ Hfatal] _].
  split; [| reflexivity].
  apply Hfatal. split; [reflexivity |]. split; [lia |].
  right. exists "xdp_stats_map". split; [reflexivity | discriminate].
Defined.

(** C3, as the specification has it, fails: the pinned map is there, it
    opens, the program declares the name, and the result is fatal all the
    same, because libbpf refused to swap the descriptor. *)
Lemma reuse_fatal_with_declared_name :
  ~ fatal_only_for_missing_name (H := defines) (Kernel0 := SimLoader.kernel)
      tt "veth0" stubborn_host.
Proof.
  intros Hclaim.
  assert (Hfound : XdpLoader.bpf_object__find_map_by_name stubborn_host tt map_name = None).
  { apply Hclaim. vm_compute. reflexivity. }
  vm_compute in Hfound. discriminate.
Qed.

Lemma pinned_or_reused_never_both_witness :
  let r := XdpLoader.load_bpf_and_xdp_attach_with_reuse
             (H := defines) (Kernel0 := SimLoader.kernel) veth0 pinned_host in
  result_of r = Ret (Some 0)
  /\ xorb (pinned_by_this_run (trace_of r)) (reused_prior_pin (trace_of r)) = true
  /\ reused_prior_pin (trace_of r) = true.
Proof.
  intros r. split; [vm_compute; reflexivity |]. split; [| vm_compute; reflexivity].
  apply (pinned_or_reused_never_both (H := defines) (Kernel0 := SimLoader.kernel)
           veth0 pinned_host (world_of r) (trace_of r) 0).
  - vm_compute. reflexivity.
  - vm_compute. reflexivity.
Defined.

Lemma pin_failure_keeps_program_attached_witness :
  result_of (XdpLoader.load_bpf_and_xdp_attach_with_reuse
               (H := defines) (Kernel0 := SimLoader.kernel) veth0 readonly_host)
    = Ret (Some 0)
  /\ result_of (XdpLoader.main (H := defines) (Kernel0 := SimLoader.kernel)
                               veth0 readonly_host) = Ret EXIT_OK.
Proof.
  pose (r2 := XdpLoader.reuse_pinned_map (H := defines) (Kernel0 := SimLoader.kernel)
                tt "veth0" readonly_host).
  pose (r4 := XdpLoader.pin_maps_in_bpf_object (H := defines) (Kernel0 := SimLoader.kernel)
                tt "veth0" readonly_host).
  destruct (pin_failure_keeps_program_attached (H := defines) (Kernel0 := SimLoader.kernel)
              veth0 readonly_host readonly_host (world_of r2) readonly_host
              (world_of r4) 0 (trace_of r2) (trace_of r4) 40)
    as [Hload Hmain].
  - discriminate.
  - reflexivity.
  - reflexivity.
  - vm_compute. reflexivity.
  - reflexivity.
  - vm_compute. reflexivity.
  - discriminate.
  - split; [rewrite Hload; reflexivity | exact Hmain].
Defined.

(** * Further properties of the reporter *)

Section ClockFacts.
Import XdpStats.
Context `{Common} {W : Type} `{!Kernel W}.

(** A reading of a clock that is in range is the number of nanoseconds,
    without any wrap. *)
Theorem gettime_nanoseconds (w w1 : W) (res tv_sec tv_nsec : Z) :
  clock_gettime w = (w1, (res, (tv_sec, tv_nsec))) ->
  0 <= res ->
  0 <= tv_sec -> 0 <= tv_nsec ->
  tv_sec * NANOSEC_PER_SEC + tv_nsec < 2 ^ 64 ->
  gettime w
  = (w1, [Call "clock_gettime" [AInt tv_sec; AInt tv_nsec] res],
     Ret (tv_sec * NANOSEC_PER_SEC + tv_nsec)).
Proof.
  intros Hclock Hres Hsec Hnsec Hfit.
  unfold gettime, call_clock_gettime, call, bind. rewrite Hclock.
  cbn [fst snd]. destruct (res <? 0) eqn:Hneg; [apply Z.ltb_lt in Hneg; lia |].
  cbn. unfold u64, NANOSEC_PER_SEC in *.
  rewrite (Z.mod_small tv_sec) by nia.
  rewrite Z.mod_small by lia. reflexivity.
Qed.

(** When the clock cannot be read, a collection pass ends the process with
    [EXIT_FAIL] at its first key, before any lookup. *)
Theorem stats_collect_exits_without_clock (fd map_type : Z)
  (stats_rec : stats_record) (w w1 : W) (res tv_sec tv_nsec : Z) :
  (0 < XDP_ACTION_MAX)%nat ->
  clock_gettime w = (w1, (res, (tv_sec, tv_nsec))) ->
  res < 0 ->
  stats_collect fd map_type stats_rec w
  = (w1,
     [Call "clock_gettime" [AInt tv_sec; AInt tv_nsec] res;
      Stderr "Error with gettimeofday! (%i)\n" [AInt res]],
     Exit EXIT_FAIL).
Proof.
  intros Hsome Hclock Hres. unfold stats_collect.
  destruct XDP_ACTION_MAX as [| n]; [lia |].
  cbn [stats_collect_keys]. apply bind_exit.
  unfold map_collect. apply bind_exit.
  unfold gettime, call_clock_gettime, call, bind. rewrite Hclock. cbn [fst snd].
  apply Z.ltb_lt in Hres. rewrite Hres. reflexivity.
Qed.

(** For two timestamps in their order nothing wraps: the period is the
    literal 0 when they are equal, and otherwise the quotient, as doubles,
    of their difference in nanoseconds by 10^9. *)
Theorem calc_period_in_order (r p : record) :
  0 <= timestamp p <= timestamp r ->
  timestamp r < 2 ^ 64 ->
  calc_period r p
  = (if timestamp r =? timestamp p then D_of_int 0
     else D_div (D_of_int (timestamp r - timestamp p)) (D_of_int NANOSEC_PER_SEC)).
Proof.
  intros Horder Hfit. unfold calc_period, u64.
  rewrite Z.mod_small by lia.
  destruct (timestamp r =? timestamp p) eqn:Hsame.
  - apply Z.eqb_eq in Hsame. rewrite Hsame, Z.sub_diag. reflexivity.
  - apply Z.eqb_neq in Hsame.
    destruct (0 <? timestamp r - timestamp p) eqn:Hpos; [reflexivity |].
    apply Z.ltb_ge in Hpos. lia.
Qed.

(** When the current timestamp is the smaller one, the difference wraps as
    [__u64]: the period is the quotient of the difference plus 2^64 by 10^9,
    it does not compare equal to zero, and the row is not skipped. *)
Theorem calc_period_wraps (r p : record) :
  0 <= timestamp r < timestamp p ->
  timestamp p < 2 ^ 64 ->
  calc_period r p
  = D_div (D_of_int (timestamp r - timestamp p + 2 ^ 64)) (D_of_int NANOSEC_PER_SEC)
  /\ d_is_zero (calc_period r p) = false.
Proof.
  intros Horder Hfit.
  assert (Hmod : u64 (timestamp r - timestamp p)
                 = timestamp r - timestamp p + 2 ^ 64).
  { unfold u64. symmetry. apply (Z.mod_unique _ _ (-1)); lia. }
  assert (Heq : calc_period r p
                = D_div (D_of_int (timestamp r - timestamp p + 2 ^ 64))
                        (D_of_int NANOSEC_PER_SEC)).
  { unfold calc_period. rewrite Hmod.
    destruct (0 <? timestamp r - timestamp p + 2 ^ 64) eqn:Hpos; [reflexivity |].
    apply Z.ltb_ge in Hpos. lia. }
  split; [exact Heq |].
  destruct (d_is_zero (calc_period r p)) eqn:Hzero; [| reflexivity].
  apply calc_period_zero in Hzero. lia.
Qed.

End ClockFacts.

Section CollectMore.
Import XdpStats.
Context `{Common} {W : Type} `{!Kernel W}.

Lemma sum_values_from (values : list datarec) (p b : Z) :
  fold_left (fun acc v => (u64 (fst acc + rx_packets v), u64 (snd acc + rx_bytes v)))
            values (p, b)
  = (if values is [] then (p, b)
     else (u64 (p + sum_packets values), u64 (b + sum_bytes values))).
Proof.
  revert p b. induction values as [| v vs IH]; intros p b; [reflexivity |].
  cbn [fold_left fst snd]. rewrite IH. destruct vs as [| v' vs].
  - cbn. rewrite !Z.add_0_r. reflexivity.
  - unfold u64. cbn [sum_packets sum_bytes foldr].
    f_equal.
    + rewrite Zplus_mod_idemp_l. f_equal. lia.
    + rewrite Zplus_mod_idemp_l. f_equal. lia.
Qed.

(** The per-CPU sums are the sums of the values, as [__u64]. *)
Lemma sum_values_spec (values : list datarec) :
  sum_values values = (u64 (sum_packets values), u64 (sum_bytes values)).
Proof.
  unfold sum_values. rewrite sum_values_from. destruct values; reflexivity.
Qed.

(** For a per-CPU map whose array of per-CPU values fits on the stack and
    whose lookup succeeds, the value of a key is the packets and the bytes
    of the possible CPUs added up, modulo [2^64]. *)
Theorem percpu_value_is_the_sum (fd key : Z) (value : datarec) (w w1 : W)
  (values : list datarec) :
  u32 (libbpf_num_possible_cpus w) * sizeof_datarec <= stack_room w ->
  bpf_map_lookup_elem w fd key = (w1, Some values) ->
  let per_cpu := take (Z.to_nat (u32 (libbpf_num_possible_cpus w))) values in
  map_get_value_percpu_array fd key value w
  = (w1, [Call "bpf_map_lookup_elem" [AInt fd; AInt key] 0],
     Ret {| rx_packets := u64 (sum_packets per_cpu);
            rx_bytes := u64 (sum_bytes per_cpu) |}).
Proof.
  intros Hroom Hlook per_cpu.
  unfold map_get_value_percpu_array, call_bpf_map_lookup_elem, call, bind.
  apply Z.ltb_ge in Hroom. rewrite Hroom.
  rewrite Hlook. fold per_cpu. rewrite sum_values_spec. reflexivity.
Qed.

(** When [libbpf_num_possible_cpus] returns an error (a negative value),
    the count becomes an [unsigned int] of at least 2^31 and the array of
    per-CPU values at least 32 GiB: on a stack with less room the process
    ends before the lookup. *)
Theorem percpu_overflows_on_error (fd key : Z) (value : datarec) (w : W) :
  - 2 ^ 31 <= libbpf_num_possible_cpus w < 0 ->
  stack_room w < 2 ^ 35 ->
  map_get_value_percpu_array fd key value w = (w, [], StackOverflow).
Proof.
  intros Herr Hroom. unfold map_get_value_percpu_array, u32, sizeof_datarec.
  assert (Hwrap : libbpf_num_possible_cpus w mod 2 ^ 32
                  = libbpf_num_possible_cpus w + 2 ^ 32).
  { symmetry. apply (Z.mod_unique _ _ (-1)); lia. }
  rewrite Hwrap.
  destruct (stack_room w <? (libbpf_num_possible_cpus w + 2 ^ 32) * 16) eqn:Hfits;
    [reflexivity |].
  apply Z.ltb_ge in Hfits. lia.
Qed.

(** What a reading of the clock that succeeds leaves in the trace. *)
Lemma gettime_trace (w w1 : W) t ts :
  gettime w = (w1, t, Ret ts) ->
  exists res tv_sec tv_nsec,
    t = [Call "clock_gettime" [AInt tv_sec; AInt tv_nsec] res].
Proof.
  unfold gettime, call_clock_gettime, call, bind.
  destruct (clock_gettime w) as [w0 [res [tv_sec tv_nsec]]].
  destruct (res <? 0); cbn; [discriminate |].
  intros [= <- <- <-]. eauto.
Qed.

Lemma stats_collect_keys_unknown_kind (n key : nat) (fd map_type : Z)
  (stats_rec snap : stats_record) (w w1 : W) t :
  is_array_kind map_type = false ->
  (key + n <= length stats_rec)%nat ->
  stats_collect_keys n key fd map_type stats_rec w = (w1, t, Ret snap) ->
  total <$> snap = total <$> stats_rec
  /\ omap observe t = (fun k => Tick (timestamp (snap !!! k))) <$> seq key n
  /\ keys_read t = []
  /\ complaints "ERR: Unknown map_type(%u) cannot handle\n" t = n
  /\ length snap = length stats_rec
  /\ (forall j, (j < key)%nat -> snap !! j = stats_rec !! j).
Proof.
  unfold is_array_kind. intros Hkind. apply orb_false_iff in Hkind as [Harr Hper].
  revert key stats_rec w t. induction n as [| n IH]; intros key stats_rec w t Hlen Hrun.
  - cbn in Hrun. injection Hrun as <- <- <-. repeat split; auto.
  - cbn [stats_collect_keys] in Hrun.
    apply bind_inv_ret in Hrun as (w0 & t1 & t2 & [b r] & Hone & Hrest & ->).
    unfold map_collect in Hone. rewrite Harr, Hper in Hone.
    apply bind_inv_ret in Hone as (w2 & t3 & t4 & ts & Hts & Hlog & ->).
    pose proof (gettime_inv _ _ _ _ Hts) as Htick.
    apply gettime_trace in Hts as (res & tv_sec & tv_nsec & ->).
    cbn in Hlog. injection Hlog as <- <- <- <-.
    cbn [snd] in Hrest.
    assert (Hlen' : (S key + n <= length
                       (<[key := {| timestamp := ts; total := total (stats_rec !!! key) |}]>
                          stats_rec))%nat)
      by (rewrite length_insert; lia).
    destruct (IH _ _ _ _ Hlen' Hrest) as (Htot & Hobs & Hkeys & Hlogs & Hl & Hkeep).
    rewrite length_insert in Hl.
    assert (Hr : snap !!! key = {| timestamp := ts; total := total (stats_rec !!! key) |}).
    { apply list_lookup_total_correct. rewrite Hkeep by lia.
      apply list_lookup_insert_eq. lia. }
    split; [| split; [| split; [| split; [| split]]]].
    + rewrite Htot, list_fmap_insert. cbn [total].
      apply list_insert_id. rewrite list_lookup_fmap.
      rewrite (list_lookup_lookup_total_lt stats_rec key) by lia. reflexivity.
    + rewrite !omap_app, Hobs. cbn [seq fmap list_fmap].
      rewrite Hr. cbn [timestamp].
      change (omap observe [Stderr "ERR: Unknown map_type(%u) cannot handle\n"
                                   [AInt map_type]]) with (@nil obs).
      rewrite Htick. reflexivity.
    + unfold keys_read in *. rewrite omap_app, Hkeys. reflexivity.
    + rewrite complaints_app, Hlogs. reflexivity.
    + exact Hl.
    + intros j Hj. rewrite Hkeep by lia. apply list_lookup_insert_ne. lia.
Qed.

(** A map of a kind that the reporter does not know is never looked up: a
    pass reads the clock once per key and stores the reading as the
    timestamp of the key's record, complains once per key, and keeps the
    counters of every record. *)
Theorem unknown_kind_keeps_counters (fd map_type : Z)
  (stats_rec snap : stats_record) (w w1 : W) (t : list event) :
  is_array_kind map_type = false ->
  length stats_rec = XDP_ACTION_MAX ->
  stats_collect fd map_type stats_rec w = (w1, t, Ret snap) ->
  total <$> snap = total <$> stats_rec
  /\ omap observe t = (fun k => Tick (timestamp (snap !!! k))) <$> seq 0 XDP_ACTION_MAX
  /\ keys_read t = []
  /\ complaints "ERR: Unknown map_type(%u) cannot handle\n" t = XDP_ACTION_MAX.
Proof.
  intros Hkind Hlen Hrun. unfold stats_collect in Hrun.
  apply stats_collect_keys_unknown_kind in Hrun
    as (Htot & Hobs & Hkeys & Hlogs & _); [| exact Hkind | lia].
  auto.
Qed.

Lemma map_collect_forgets_record (fd map_type key : Z) (rec rec' : record) (w : W) :
  is_array_kind map_type = true ->
  map_collect fd map_type key rec w = map_collect fd map_type key rec' w.
Proof.
  unfold is_array_kind, map_collect. intros Hkind.
  destruct (map_type =? BPF_MAP_TYPE_ARRAY); [reflexivity |].
  cbn in Hkind. rewrite Hkind. reflexivity.
Qed.

Lemma stats_collect_keys_forgets (n key : nat) (fd map_type : Z)
  (l l' : stats_record) (w : W) :
  is_array_kind map_type = true ->
  length l = length l' ->
  (key + n = length l)%nat ->
  (forall j, (j < key)%nat -> l !! j = l' !! j) ->
  stats_collect_keys n key fd map_type l w = stats_collect_keys n key fd map_type l' w.
Proof.
  intros Hkind. revert key l l' w.
  induction n as [| n IH]; intros key l l' w Hlen Hend Hagree.
  - cbn. f_equal. f_equal. apply list_eq. intros j.
    destruct (decide (j < key)%nat) as [Hlt | Hge]; [apply Hagree; exact Hlt |].
    rewrite !lookup_ge_None_2 by lia. reflexivity.
  - cbn [stats_collect_keys]. unfold bind.
    rewrite (map_collect_forgets_record fd map_type (Z.of_nat key)
               (l !!! key) (l' !!! key) w Hkind).
    destruct (map_collect fd map_type (Z.of_nat key) (l' !!! key) w)
      as [[w0 t0] [[b r] | c | |]]; [| reflexivity | reflexivity | reflexivity].
    cbn [snd].
    rewrite (IH (S key) (<[key := r]> l) (<[key := r]> l') w0); [reflexivity | | |].
    + rewrite !length_insert. exact Hlen.
    + rewrite length_insert. lia.
    + intros j Hj. destruct (decide (j = key)) as [-> | Hne].
      * rewrite !list_lookup_insert_eq by lia. reflexivity.
      * rewrite !list_lookup_insert_ne by lia. apply Hagree. lia.
Qed.

(** For the two kinds of map that the reporter reads, a pass takes nothing
    over from the records it is given: whatever they hold, the outcome, the
    trace and the snapshot are the same. *)
Theorem stats_collect_forgets_records (fd map_type : Z)
  (stats_rec stats_rec' : stats_record) (w : W) :
  is_array_kind map_type = true ->
  length stats_rec = XDP_ACTION_MAX ->
  length stats_rec' = XDP_ACTION_MAX ->
  stats_collect fd map_type stats_rec w = stats_collect fd map_type stats_rec' w.
Proof.
  intros Hkind Hlen Hlen'. unfold stats_collect.
  apply stats_collect_keys_forgets; [exact Hkind | congruence | lia |].
  intros j Hj. lia.
Qed.

(** With a clock that can be read and a stack that holds the per-CPU
    array, a pass always ends normally, and the snapshot has as many
    records as the one it started from. *)
Lemma stats_collect_keys_runs (n key : nat) (fd map_type : Z)
  (stats_rec : stats_record) (w : W) :
  (forall w0 : W, 0 <= fst (snd (clock_gettime w0))) ->
  (forall w0 : W, u32 (libbpf_num_possible_cpus w0) * sizeof_datarec <= stack_room w0) ->
  exists w1 t snap,
    stats_collect_keys n key fd map_type stats_rec w = (w1, t, Ret snap)
    /\ length snap = length stats_rec.
Proof.
  intros Hclock Hroom. revert key stats_rec w.
  induction n as [| n IH]; intros key stats_rec w.
  - eexists _, _, _. split; reflexivity.
  - cbn [stats_collect_keys].
    assert (Hone : exists w0 t0 b r,
               map_collect fd map_type (Z.of_nat key) (stats_rec !!! key) w
               = (w0, t0, Ret (b, r))).
    { unfold map_collect, gettime, call_clock_gettime, call, bind.
      pose proof (Hclock w) as Hres.
      destruct (clock_gettime w) as [w0 [res [tv_sec tv_nsec]]]. cbn [fst snd] in *.
      apply Z.ltb_ge in Hres. rewrite Hres. cbn.
      destruct (map_type =? BPF_MAP_TYPE_ARRAY).
      - unfold map_get_value_array, call_bpf_map_lookup_elem, call, bind.
        destruct (bpf_map_lookup_elem w0 fd (Z.of_nat key)) as [w2 [vs |]];
          cbn; eauto.
      - destruct (map_type =? BPF_MAP_TYPE_PERCPU_ARRAY).
        + unfold map_get_value_percpu_array, call_bpf_map_lookup_elem, call, bind.
          pose proof (Hroom w0) as Hfits. apply Z.ltb_ge in Hfits. rewrite Hfits.
          destruct (bpf_map_lookup_elem w0 fd (Z.of_nat key)) as [w2 [vs |]];
            cbn; [destruct (sum_values _); cbn |]; eauto.
        + cbn. eauto. }
    destruct Hone as (w0 & t0 & b & r & Hone).
    destruct (IH (S key) (<[key := r]> stats_rec) w0) as (w1 & t1 & snap & Hrest & Hlen).
    eexists _, _, _. split.
    + eapply bind_run; [exact Hone | exact Hrest].
    + rewrite Hlen, length_insert. reflexivity.
Qed.

End CollectMore.

Section PollMore.
Import XdpStats.
Context `{Common} {W : Type} `{!Kernel W}.
Variables (pin_dir mapname : string) (map_expect : bpf_map_info) (interval : Z).

Lemma stats_collect_runs (fd map_type : Z) (stats_rec : stats_record) (w : W) :
  (forall w0 : W, 0 <= fst (snd (clock_gettime w0))) ->
  (forall w0 : W, u32 (libbpf_num_possible_cpus w0) * sizeof_datarec <= stack_room w0) ->
  exists w1 t snap, stats_collect fd map_type stats_rec w = (w1, t, Ret snap).
Proof.
  intros Hclock Hroom.
  destruct (stats_collect_keys_runs XDP_ACTION_MAX 0 fd map_type stats_rec w
              Hclock Hroom) as (w1 & t & snap & Hrun & _).
  exists w1, t, snap. exact Hrun.
Qed.

Lemma open_check_returns (info0 : bpf_map_info) (w : W) :
  exists w1 t err fd inf,
    open_check_bpf_map_file pin_dir mapname map_expect info0 w
    = (w1, t, Ret (err, (fd, inf))).
Proof.
  unfold open_check_bpf_map_file, call_open_bpf_map_file, call, bind.
  destruct (open_bpf_map_file w pin_dir mapname info0) as [w1 [fd inf]].
  destruct (fd <? 0); [cbn; eauto 10 |].
  destruct (negb (check_map_fd_info inf map_expect =? 0)); [cbn; eauto 10 |].
  destruct verbose; cbn; eauto 10.
Qed.

Lemma poll_report_runs (st : poll_state) (w : W) :
  (forall w0 : W, 0 <= fst (snd (clock_gettime w0))) ->
  (forall w0 : W, u32 (libbpf_num_possible_cpus w0) * sizeof_datarec <= stack_room w0) ->
  exists w' tr st', poll_report interval st w = (w', tr, Ret (LoopTop, st')).
Proof.
  intros Hclock Hroom. unfold poll_report.
  cbn [map_id_prev map_id map_fd info record_ map_type prev].
  destruct (negb (map_id_prev st =? id (info st))).
  - destruct (stats_collect_runs (map_fd st) (type (info st)) (record_ st) w
                Hclock Hroom) as (w1 & t1 & base & Hbase).
    destruct (stats_collect_runs (map_fd st) (type (info st)) base
                (usleep w1 (1000000 / 4)) Hclock Hroom) as (w2 & t2 & coll & Hcoll).
    destruct (stats_print_runs coll base w2) as [rows Hprint].
    unfold bind, fprintf_stderr, emit, call_usleep, call_sleep, call, ret.
    rewrite Hbase. cbn [map_id_prev map_id map_fd info record_ map_type prev].
    rewrite Hcoll, Hprint. eauto.
  - destruct (stats_collect_runs (map_fd st) (map_type st) (record_ st) w
                Hclock Hroom) as (w1 & t1 & coll & Hcoll).
    destruct (stats_print_runs coll (record_ st) w1) as [rows Hprint].
    unfold bind, call_sleep, call, ret.
    cbn [map_id_prev map_id map_fd info record_ map_type prev].
    rewrite Hcoll, Hprint. eauto.
Qed.

Lemma poll_step_runs (l : label) (st : poll_state) (w : W) :
  (forall w0 : W, 0 <= fst (snd (clock_gettime w0))) ->
  (forall w0 : W, u32 (libbpf_num_possible_cpus w0) * sizeof_datarec <= stack_room w0) ->
  exists w' tr l' st',
    poll_step pin_dir mapname map_expect interval l st w = (w', tr, Ret (l', st')).
Proof.
  intros Hclock Hroom. destruct l; cbn [poll_step].
  - unfold bind, call_close, call, ret. eauto.
  - destruct (open_check_returns (info st) w) as (w1 & t1 & err & fd & inf & Hopen).
    unfold bind at 1. rewrite Hopen.
    destruct ((err =? EXIT_FAIL_BPF) || negb (err =? EXIT_OK)).
    + unfold bind, fprintf_stderr, emit, call_usleep, call, ret. eauto 10.
    + destruct (poll_report_runs (reopened st fd inf) w1 Hclock Hroom)
        as (w' & tr & st' & Hreport).
      unfold reopened in Hreport. rewrite Hreport. eauto 10.
Qed.

(** As long as the monotonic clock can be read and the stack holds the
    per-CPU array, the poll loop never ends the process and never divides
    by a zero period, whatever the opens and the lookups give: after any
    number of steps it is still running. *)
Theorem poll_loop_keeps_running (n : nat) (l : label) (st : poll_state) (w : W) :
  (forall w0 : W, 0 <= fst (snd (clock_gettime w0))) ->
  (forall w0 : W, u32 (libbpf_num_possible_cpus w0) * sizeof_datarec <= stack_room w0) ->
  exists w' tr l' st',
    poll_run n pin_dir mapname map_expect interval l st w = (w', tr, Ret (l', st')).
Proof.
  intros Hclock Hroom. revert l st w. induction n as [| n IH]; intros l st w.
  - cbn. eauto 10.
  - destruct (poll_step_runs l st w Hclock Hroom) as (w1 & t1 & l1 & st1 & Hstep).
    destruct (IH l1 st1 w1) as (w2 & t2 & l2 & st2 & Hrun).
    cbn [poll_run]. erewrite bind_run; [| exact Hstep | exact Hrun]. eauto 10.
Qed.

(** A round in which the map has kept its identifier: the old descriptor
    is closed, the map is opened again, one pass is taken with the kind of
    map recorded before, and what is printed is what [stats_print] writes
    for the new snapshot against the snapshot of the round before, which
    becomes the previous one. *)
Theorem steady_round (st : poll_state) (w w1 w2 : W) (t1 t2 : list event)
  (fd : Z) (inf : bpf_map_info) (collected : stats_record) :
  EXIT_FAIL_BPF <> EXIT_OK ->
  open_check_bpf_map_file pin_dir mapname map_expect (info st) (close w (map_fd st))
    = (w1, t1, Ret (EXIT_OK, (fd, inf))) ->
  id inf = map_id st ->
  stats_collect fd (map_type st) (record_ st) w1 = (w2, t2, Ret collected) ->
  exists rows,
    stats_print collected (record_ st) w2 = (w2, report_header ++ rows, Ret tt) /\
    poll_run 2 pin_dir mapname map_expect interval LoopTop st w
    = (sleep w2 interval,
       [Call "close" [AInt (map_fd st)] 0] ++ t1 ++ t2
         ++ (report_header ++ rows) ++ [Call "sleep" [AInt interval] 0],
       Ret (LoopTop,
            {| map_fd := fd; info := inf; map_id := id inf;
               map_id_prev := map_id st; map_type := map_type st;
               record_ := collected; prev := record_ st |})).
Proof.
  intros Hcodes Hopen Hid Hcoll.
  destruct (stats_print_runs collected (record_ st) w2) as [rows Hprint].
  exists rows. split; [exact Hprint |].
  assert (Hcond : (EXIT_OK =? EXIT_FAIL_BPF) || negb (EXIT_OK =? EXIT_OK) = false).
  { unfold EXIT_OK in *. destruct (0 =? EXIT_FAIL_BPF) eqn:Hsame.
    - apply Z.eqb_eq in Hsame. congruence.
    - reflexivity. }
  assert (Hsame : negb (map_id st =? id inf) = false).
  { apply negb_false_iff, Z.eqb_eq. congruence. }
  set (top := {| map_fd := map_fd st; info := info st; map_id := map_id st;
                 map_id_prev := map_id st; map_type := map_type st;
                 record_ := record_ st; prev := prev st |}).
  assert (Hround : poll_step pin_dir mapname map_expect interval Reopen top
                     (close w (map_fd st))
    = (sleep w2 interval,
       t1 ++ t2 ++ (report_header ++ rows) ++ [Call "sleep" [AInt interval] 0],
       Ret (LoopTop,
            {| map_fd := fd; info := inf; map_id := id inf;
               map_id_prev := map_id st; map_type := map_type st;
               record_ := collected; prev := record_ st |}))).
  { cbn [poll_step]. erewrite bind_run; [reflexivity | exact Hopen |].
    cbn beta iota. rewrite Hcond. unfold poll_report.
    cbn [map_id_prev map_id map_fd info record_ map_type prev top].
    rewrite Hsame. unfold bind, call_sleep, call, ret.
    cbn [map_id_prev map_id map_fd info record_ map_type prev].
    rewrite Hcoll, Hprint. rewrite <- ?app_assoc, ?app_nil_r. reflexivity. }
  cbn [poll_run].
  erewrite bind_run; [reflexivity | reflexivity |].
  cbn [fst snd]. fold top.
  erewrite bind_run; [| exact Hround | reflexivity].
  rewrite app_nil_r. reflexivity.
Qed.

(** The re-open loop never closes a descriptor: a map that opened and did
    not have the expected shape stays open when the next attempt
    overwrites the descriptor. *)
Theorem refused_reopen_closes_nothing (n : nat) (st : poll_state) (w : W) :
  reopen_refused n pin_dir mapname map_expect w (info st) ->
  calls "close"
        (trace_of (poll_run n pin_dir mapname map_expect interval Reopen st w)) = 0%nat
  /\ calls "open_bpf_map_file"
           (trace_of (poll_run n pin_dir mapname map_expect interval Reopen st w)) = n.
Proof.
  revert st w. induction n as [| n IH]; intros st w Hrefused.
  - split; reflexivity.
  - cbn [reopen_refused] in Hrefused.
    destruct (open_bpf_map_file w pin_dir mapname (info st)) as [w1 [fd inf]] eqn:Hopen.
    destruct Hrefused as [Hwhy Hrefused].
    destruct (IH (reopened st fd inf) _ Hrefused) as [Hclose Hopens].
    destruct (poll_run n pin_dir mapname map_expect interval Reopen
                (reopened st fd inf) (usleep w1 (1000000 / 4)))
      as [[w2 t2] r2] eqn:Hrun.
    cbn [trace_of fst snd] in Hclose, Hopens.
    destruct Hwhy as [Hfd | [Hfd Hshape]].
    + cbn [poll_run]. erewrite bind_run;
        [| eapply reopen_step_retries;
           [apply open_check_open_fails; eassumption | left; reflexivity]
         | exact Hrun].
      cbn [trace_of fst snd]. rewrite !calls_app, Hclose, Hopens. split; reflexivity.
    + cbn [poll_run]. erewrite bind_run;
        [| eapply reopen_step_retries;
           [apply open_check_mismatch; eassumption | right; exact Hshape]
         | exact Hrun].
      cbn [trace_of fst snd]. rewrite !calls_app, Hclose, Hopens. split; reflexivity.
Qed.

(** At start-up a map that cannot be opened ends the reporter at once:
    [main] returns [EXIT_FAIL_BPF] without a retry and without a pass. *)
Theorem startup_returns_on_open_failure (n : nat) (cfg : config) (w w1 : W) fd inf :
  let dir := snd (snprintf PATH_MAX (pin_basedir +:+ "/" +:+ ifname cfg)) in
  EXIT_FAIL_BPF <> EXIT_OK ->
  ifindex cfg <> -1 ->
  open_bpf_map_file w dir "xdp_stats_map" zero_info = (w1, (fd, inf)) ->
  fd < 0 ->
  main n cfg w
  = (w1,
     [Call "open_bpf_map_file" [AStr dir; AStr "xdp_stats_map"] fd;
      Stderr "ERR: open_bpf_map_file failed for %s/%s\n" [AStr dir; AStr "xdp_stats_map"]],
     Ret (Returned EXIT_FAIL_BPF)).
Proof.
  intros dir Hcodes Hdev Hopen Hfd. unfold main.
  apply Z.eqb_neq in Hdev. rewrite Hdev.
  unfold dir, snprintf in *. cbn [fst snd] in *.
  destruct (Z.of_nat _ <? 0) eqn:Hlen; [apply Z.ltb_lt in Hlen; lia |].
  unfold bind.
  erewrite open_check_open_fails by eassumption.
  unfold EXIT_OK in *.
  destruct (EXIT_FAIL_BPF =? 0) eqn:Hzero; cbn [negb].
  - apply Z.eqb_eq in Hzero. congruence.
  - unfold ret. rewrite app_nil_r. reflexivity.
Qed.

(** The open-and-validate call succeeds exactly when the map opens and
    its shape passes the check; in every case it hands back the descriptor
    and the info as the open left them, and it never closes the descriptor
    itself. *)
Theorem open_check_ok_iff (info0 inf : bpf_map_info) (w w1 : W) (fd : Z) :
  EXIT_FAIL_BPF <> EXIT_OK ->
  open_bpf_map_file w pin_dir mapname info0 = (w1, (fd, inf)) ->
  exists t err,
    open_check_bpf_map_file pin_dir mapname map_expect info0 w
      = (w1, t, Ret (err, (fd, inf))) /\
    (err = EXIT_OK <-> 0 <= fd /\ check_map_fd_info inf map_expect = 0) /\
    calls "close" t = 0%nat.
Proof.
  intros Hcodes Hopen.
  unfold open_check_bpf_map_file, call_open_bpf_map_file, call, bind.
  rewrite Hopen. destruct (fd <? 0) eqn:Hfd.
  - apply Z.ltb_lt in Hfd. cbn. eexists _, _. split; [reflexivity |].
    split; [| reflexivity]. split; [congruence | lia].
  - apply Z.ltb_ge in Hfd.
    destruct (check_map_fd_info inf map_expect =? 0) eqn:Hcheck; cbn [negb].
    + apply Z.eqb_eq in Hcheck.
      destruct verbose; cbn; eexists _, _; (split; [reflexivity |]);
        (split; [| reflexivity]); split; auto.
    + apply Z.eqb_neq in Hcheck. cbn. eexists _, _. split; [reflexivity |].
      split; [| reflexivity]. unfold EXIT_OK. split; [congruence | tauto].
Qed.

End PollMore.

(** * Further properties of the loader *)

Section PathFacts.

Lemma substring_fits (m : nat) (s : string) :
  (String.length s <= m)%nat -> String.substring 0 m s = s.
Proof.
  revert m. induction s as [| c s IH]; intros m Hlen.
  - destruct m; reflexivity.
  - destruct m as [| m]; cbn in Hlen; [lia |].
    cbn. rewrite IH by lia. reflexivity.
Qed.

Lemma substring_bounded (m : nat) (s : string) :
  (String.length (String.substring 0 m s) <= m)%nat.
Proof.
  revert m. induction s as [| c s IH]; intros m.
  - destruct m; cbn; lia.
  - destruct m as [| m]; cbn; [lia |]. specialize (IH m). lia.
Qed.

Lemma length_append (a b : string) :
  String.length (a +:+ b) = (String.length a + String.length b)%nat.
Proof.
  induction a as [| c a IH]; [reflexivity |].
  change (String c a +:+ b) with (String c (a +:+ b)).
  cbn [String.length]. rewrite IH. reflexivity.
Qed.

Lemma append_assoc (a b c : string) : (a +:+ b) +:+ c = a +:+ (b +:+ c).
Proof.
  induction a as [| x a IH]; [reflexivity |].
  change (String x a +:+ b) with (String x (a +:+ b)).
  change (String x (a +:+ b) +:+ c) with (String x ((a +:+ b) +:+ c)).
  change (String x a +:+ (b +:+ c)) with (String x (a +:+ (b +:+ c))).
  rewrite IH. reflexivity.
Qed.

(** For a device name that leaves room in the buffers, the pin directory
    is the base directory with the name, and the path that is tested,
    opened and unpinned is the map's name in that directory. *)
Theorem pin_path_of_fitting_name (subdir : string) :
  (String.length subdir <= 4069)%nat ->
  pin_dir_of subdir = "/sys/fs/bpf/" +:+ subdir
  /\ pin_path_of subdir = pin_dir_of subdir +:+ "/xdp_stats_map".
Proof.
  intros Hfit. unfold pin_dir_of, pin_path_of, snprintf. cbn [snd].
  assert (Hdir : String.substring 0 (PATH_MAX - 1) (pin_basedir +:+ "/" +:+ subdir)
                 = "/sys/fs/bpf/" +:+ subdir).
  { apply substring_fits.
    change (pin_basedir +:+ "/" +:+ subdir) with ("/sys/fs/bpf/" +:+ subdir).
    rewrite length_append.
    change (String.length "/sys/fs/bpf/") with 12%nat.
    change (PATH_MAX - 1)%nat with 4095%nat. lia. }
  split; [exact Hdir |]. rewrite Hdir.
  replace (pin_basedir +:+ "/" +:+ subdir +:+ "/" +:+ map_name)
    with (("/sys/fs/bpf/" +:+ subdir) +:+ "/xdp_stats_map").
  - apply substring_fits. rewrite !length_append.
    change (String.length "/sys/fs/bpf/") with 12%nat.
    change (String.length "/xdp_stats_map") with 14%nat.
    change (PATH_MAX - 1)%nat with 4095%nat. lia.
  - change (pin_basedir +:+ "/" +:+ subdir +:+ "/" +:+ map_name)
      with ("/sys/fs/bpf/" +:+ (subdir +:+ "/xdp_stats_map")).
    apply append_assoc.
Qed.

(** Whatever the device name, neither path is longer than the buffer
    allows: a longer text is cut. *)
Theorem pin_paths_fit_the_buffers (subdir : string) :
  (String.length (pin_dir_of subdir) <= PATH_MAX - 1)%nat
  /\ (String.length (pin_path_of subdir) <= PATH_MAX - 1)%nat.
Proof.
  unfold pin_dir_of, pin_path_of, snprintf. cbn [snd].
  split; apply substring_bounded.
Qed.

End PathFacts.

Section LoaderMore.
Import XdpLoader.
Context `{Common} {W : Type} `{!Kernel W}.

Ltac open_calls :=
  unfold call_access, call_bpf_obj_get, call_find_map_by_name, call_reuse_fd,
    call_unpin_maps, call_pin_maps, call_create, call_attach, call_program_close,
    call_close, when_verbose, error_exit, call, bind, ret, printf, fprintf_stderr,
    emit in *.

Ltac fix_paths subdir :=
  pose proof (snprintf_nonneg PATH_MAX (pin_basedir +:+ "/" +:+ subdir)) as Hlen_dir;
  pose proof (snprintf_nonneg PATH_MAX
                (pin_basedir +:+ "/" +:+ subdir +:+ "/" +:+ map_name)) as Hlen_path;
  unfold pin_dir_of, pin_path_of in *;
  destruct (snprintf PATH_MAX (pin_basedir +:+ "/" +:+ subdir)) as [len_dir pin_dir];
  destruct (snprintf PATH_MAX (pin_basedir +:+ "/" +:+ subdir +:+ "/" +:+ map_name))
    as [len_path pin_path];
  cbn [fst snd] in *.

(** When the program cannot be created from the object file, nothing else
    is tried: no reuse, no attach, no pin, and [main] ends with
    [EXIT_FAIL_BPF]. *)
Theorem create_failure_stops_the_loader (cfg : config) (w w1 : W)
  (program : xdp_program) :
  ifindex cfg <> -1 ->
  xdp_program__create w (filename cfg) (progname cfg) = (w1, program) ->
  libxdp_get_error program <> 0 ->
  main cfg w
  = (w1,
     [Call "xdp_program__create" [AStr (filename cfg); AStr (progname cfg)]
           (libxdp_get_error program);
      Stderr "ERR: Failed to create XDP program: %s\n" [AInt (libxdp_get_error program)];
      Stderr "ERR: Failed to load and attach XDP program. Leaving load_bpf_and_xdp_attach_with_reuse...\n" []],
     Ret EXIT_FAIL_BPF).
Proof.
  intros Hdev Hcreate Herr. unfold main, load_bpf_and_xdp_attach_with_reuse.
  apply Z.eqb_neq in Hdev. rewrite Hdev.
  open_calls. rewrite Hcreate. apply Z.eqb_neq in Herr. rewrite Herr. reflexivity.
Qed.

(** A fatal result of the reuse closes the program and ends the sequence
    before the attach. *)
Theorem fatal_reuse_never_attaches (cfg : config) (w w1 w2 : W)
  (program : xdp_program) (t2 : list event) (r : Z) :
  xdp_program__create w (filename cfg) (progname cfg) = (w1, program) ->
  libxdp_get_error program = 0 ->
  reuse_pinned_map (xdp_program__bpf_obj program) (ifname cfg) w1 = (w2, t2, Ret r) ->
  r < 0 ->
  load_bpf_and_xdp_attach_with_reuse cfg w
  = (xdp_program__close w2 program,
     [Call "xdp_program__create" [AStr (filename cfg); AStr (progname cfg)] 0]
       ++ t2
       ++ [Stderr "ERR: Failed to reuse pinned map\n" [];
           Call "xdp_program__close" [] 0;
           Stderr "ERR: Failed to load and attach XDP program. Leaving load_bpf_and_xdp_attach_with_reuse...\n" []],
     Ret None).
Proof.
  intros Hcreate Hnoerr Hreuse Hr. unfold load_bpf_and_xdp_attach_with_reuse.
  unfold call_create, call, bind at 1. rewrite Hcreate, Hnoerr. cbn [Z.eqb negb].
  unfold bind at 1. rewrite Hreuse.
  destruct (0 <? r) eqn:Hpos; [apply Z.ltb_lt in Hpos; lia |].
  apply Z.ltb_lt in Hr. rewrite Hr. open_calls. reflexivity.
Qed.

(** When the attach fails, the program is closed and the pin step is not
    reached: nothing is unpinned and nothing is pinned, also when a map
    was reused just before. *)
Theorem attach_failure_pins_nothing (cfg : config) (w w1 w2 w3 : W)
  (program : xdp_program) (t2 : list event) (r aerr : Z) :
  xdp_program__create w (filename cfg) (progname cfg) = (w1, program) ->
  libxdp_get_error program = 0 ->
  reuse_pinned_map (xdp_program__bpf_obj program) (ifname cfg) w1 = (w2, t2, Ret r) ->
  0 <= r ->
  xdp_program__attach w2 program (ifindex cfg) (attach_mode cfg) 0 = (w3, aerr) ->
  aerr <> 0 ->
  load_bpf_and_xdp_attach_with_reuse cfg w
  = (xdp_program__close w3 program,
     [Call "xdp_program__create" [AStr (filename cfg); AStr (progname cfg)] 0]
       ++ t2
       ++ [Call "xdp_program__attach"
                [AInt (ifindex cfg); AInt (attach_mode cfg); AInt 0] aerr;
           Stderr "ERR: Failed to attach XDP program\n" [];
           Call "xdp_program__close" [] 0;
           Stderr "ERR: Failed to load and attach XDP program. Leaving load_bpf_and_xdp_attach_with_reuse...\n" []],
     Ret None).
Proof.
  intros Hcreate Hnoerr Hreuse Hr Hattach Haerr.
  unfold load_bpf_and_xdp_attach_with_reuse.
  unfold call_create, call, bind at 1. rewrite Hcreate, Hnoerr. cbn [Z.eqb negb].
  unfold bind at 1. rewrite Hreuse.
  apply Z.eqb_neq in Haerr.
  destruct (0 <? r) eqn:Hpos.
  - open_calls. rewrite Hattach, Haerr. reflexivity.
  - destruct (r <? 0) eqn:Hneg; [apply Z.ltb_lt in Hneg; lia |].
    open_calls. rewrite Hattach, Haerr. reflexivity.
Qed.

(** When the map was reused, the attach is followed by no pin step at all:
    the pin path is not tested again, nothing is unpinned and nothing is
    pinned, so the counters of the reused map are left alone. *)
Theorem reuse_skips_the_pin_step (cfg : config) (w w1 w2 w3 : W)
  (program : xdp_program) (t2 : list event) (r : Z) :
  xdp_program__create w (filename cfg) (progname cfg) = (w1, program) ->
  libxdp_get_error program = 0 ->
  reuse_pinned_map (xdp_program__bpf_obj program) (ifname cfg) w1 = (w2, t2, Ret r) ->
  0 < r ->
  xdp_program__attach w2 program (ifindex cfg) (attach_mode cfg) 0 = (w3, 0) ->
  load_bpf_and_xdp_attach_with_reuse cfg w
  = (w3,
     [Call "xdp_program__create" [AStr (filename cfg); AStr (progname cfg)] 0]
       ++ t2
       ++ [Call "xdp_program__attach"
                [AInt (ifindex cfg); AInt (attach_mode cfg); AInt 0] 0]
       ++ (if verbose
           then [Stdout " - Skipped map pinning (reused existing)\n" []] else [])
       ++ [Stdout "Leaving load_bpf_and_xdp_attach_with_reuse...\n" []],
     Ret (Some program)).
Proof.
  intros Hcreate Hnoerr Hreuse Hr Hattach.
  unfold load_bpf_and_xdp_attach_with_reuse.
  unfold call_create, call, bind at 1. rewrite Hcreate, Hnoerr. cbn [Z.eqb negb].
  unfold bind at 1. rewrite Hreuse.
  apply Z.ltb_lt in Hr. rewrite Hr.
  open_calls. rewrite Hattach. destruct verbose; reflexivity.
Qed.

(** When something exists at the pin path and cannot be unpinned, the pin
    step gives up with [EXIT_FAIL_BPF] and does not pin. *)
Theorem unpin_failure_stops_the_pin_step (bpf_obj : bpf_object) (subdir : string)
  (w w1 w2 : W) (a uerr : Z) :
  access w (pin_path_of subdir) = (w1, a) ->
  a <> -1 ->
  bpf_object__unpin_maps w1 bpf_obj (pin_dir_of subdir) = (w2, uerr) ->
  uerr <> 0 ->
  pin_maps_in_bpf_object bpf_obj subdir w
  = (w2,
     [Call "access" [AStr (pin_path_of subdir)] a]
       ++ (if verbose
           then [Stdout " - Unpinning (remove) prev maps in %s/\n" [AStr (pin_dir_of subdir)]]
           else [])
       ++ [Call "bpf_object__unpin_maps" [AStr (pin_dir_of subdir)] uerr;
           Stderr "ERR: UNpinning maps in %s\n" [AStr (pin_dir_of subdir)]],
     Ret EXIT_FAIL_BPF).
Proof.
  intros Haccess Ha Hunpin Huerr. unfold pin_maps_in_bpf_object. fix_paths subdir.
  rewrite Hlen_dir, Hlen_path. open_calls. rewrite Haccess.
  apply Z.eqb_neq in Ha. rewrite Ha. cbn [negb].
  apply Z.eqb_neq in Huerr.
  destruct verbose; cbn; rewrite Hunpin; cbn; rewrite Huerr; reflexivity.
Qed.

(** When something exists at the pin path and is unpinned, the maps are
    pinned afresh right after, and the result of the step is the result of
    that pinning. *)
Theorem stale_pin_is_replaced (bpf_obj : bpf_object) (subdir : string)
  (w w1 w2 w3 : W) (a err : Z) :
  access w (pin_path_of subdir) = (w1, a) ->
  a <> -1 ->
  bpf_object__unpin_maps w1 bpf_obj (pin_dir_of subdir) = (w2, 0) ->
  bpf_object__pin_maps w2 bpf_obj (pin_dir_of subdir) = (w3, err) ->
  pin_maps_in_bpf_object bpf_obj subdir w
  = (w3,
     [Call "access" [AStr (pin_path_of subdir)] a]
       ++ (if verbose
           then [Stdout " - Unpinning (remove) prev maps in %s/\n" [AStr (pin_dir_of subdir)]]
           else [])
       ++ [Call "bpf_object__unpin_maps" [AStr (pin_dir_of subdir)] 0]
       ++ (if verbose
           then [Stdout " - Pinning maps in %s/\n" [AStr (pin_dir_of subdir)]]
           else [])
       ++ [Call "bpf_object__pin_maps" [AStr (pin_dir_of subdir)] err]
       ++ (if err =? 0 then [Stdout "Leaving pin_maps_in_bpf_object...\n" []] else []),
     Ret (if err =? 0 then 0 else EXIT_FAIL_BPF)).
Proof.
  intros Haccess Ha Hunpin Hpin. unfold pin_maps_in_bpf_object. fix_paths subdir.
  rewrite Hlen_dir, Hlen_path. open_calls. rewrite Haccess.
  apply Z.eqb_neq in Ha. rewrite Ha. cbn [negb].
  destruct verbose; cbn; rewrite Hunpin; cbn; rewrite Hpin;
    destruct (err =? 0); reflexivity.
Qed.

(** [reuse_pinned_map] closes the descriptor it opened exactly when it
    gives its fatal result; on success the descriptor is left to libbpf,
    and when there is nothing to reuse there is nothing to close. *)
Theorem reuse_closes_only_on_fatal (bpf_obj : bpf_object) (subdir : string) (w : W) :
  exists w' tr r,
    reuse_pinned_map bpf_obj subdir w = (w', tr, Ret r) /\
    calls "close" tr = (if r =? -1 then 1%nat else 0%nat) /\
    (r = -1 ->
     exists fd, Call "bpf_obj_get" [AStr (pin_path_of subdir)] fd ∈ tr
                /\ last tr = Some (Call "close" [AInt fd] 0)).
Proof.
  unfold reuse_pinned_map. fix_paths subdir. rewrite Hlen_path. open_calls.
  destruct (access w pin_path) as [w1 a].
  destruct (a =? 0); cbn [negb].
  2:{ destruct verbose; cbn; eexists _, _, _; (split; [reflexivity |]);
      split; [reflexivity | discriminate | reflexivity | discriminate]. }
  destruct (bpf_obj_get w1 pin_path) as [w2 fd].
  destruct (fd <? 0).
  { destruct verbose; cbn; eexists _, _, _; (split; [reflexivity |]);
    split; [reflexivity | discriminate | reflexivity | discriminate]. }
  destruct (bpf_object__find_map_by_name w2 bpf_obj map_name) as [map |] eqn:Hfind.
  - destruct (bpf_map__reuse_fd w2 map fd) as [w3 err] eqn:Hreuse.
    destruct err; destruct verbose; cbn; rewrite Hfind; cbn; rewrite Hreuse; cbn;
      eexists _, _, _; (split; [reflexivity |]);
      (split; [reflexivity |]); try discriminate;
      intros _; exists fd; (split; [| reflexivity]);
      repeat first [apply list_elem_of_here | apply list_elem_of_further].
  - destruct verbose; cbn; rewrite Hfind; cbn;
      eexists _, _, _; (split; [reflexivity |]);
      (split; [reflexivity |]);
      intros _; exists fd; (split; [| reflexivity]);
      repeat first [apply list_elem_of_here | apply list_elem_of_further].
Qed.

End LoaderMore.

(** * The further properties, on the sample inputs *)

Lemma gettime_nanoseconds_witness :
  XdpStats.gettime (H := defines) steady_world
  = (SimStats.advance steady_world 100,
     [Call "clock_gettime" [AInt 5; AInt 0] 0], Ret 5000000000).
Proof.
  apply (gettime_nanoseconds (H := defines) steady_world
           (SimStats.advance steady_world 100) 0 5 0).
  - reflexivity.
  - lia.
  - lia.
  - lia.
  - reflexivity.
Defined.

Lemma stats_collect_exits_without_clock_witness :
  XdpStats.stats_collect (H := defines) (Kernel0 := SimBroken.kernel)
                         3 BPF_MAP_TYPE_ARRAY (replicate 5 zero_record) (-1)
  = (-1,
     [Call "clock_gettime" [AInt 0; AInt 0] (-1);
      Stderr "Error with gettimeofday! (%i)\n" [AInt (-1)]],
     Exit 1).
Proof.
  apply (stats_collect_exits_without_clock (H := defines) (Kernel0 := SimBroken.kernel)
           3 BPF_MAP_TYPE_ARRAY (replicate 5 zero_record) (-1) (-1) (-1) 0 0).
  - cbn. lia.
  - reflexivity.
  - lia.
Defined.

Lemma calc_period_in_order_witness :
  XdpStats.calc_period {| timestamp := 7000000000; total := zero_datarec |}
                       {| timestamp := 5000000000; total := zero_datarec |}
  = D_div (D_of_int 2000000000) (D_of_int NANOSEC_PER_SEC).
Proof.
  rewrite (calc_period_in_order {| timestamp := 7000000000; total := zero_datarec |}
                                {| timestamp := 5000000000; total := zero_datarec |}).
  - reflexivity.
  - cbn. lia.
  - reflexivity.
Defined.

Lemma calc_period_wraps_witness :
  d_is_zero (XdpStats.calc_period {| timestamp := 5000000000; total := zero_datarec |}
                                  {| timestamp := 7000000000; total := zero_datarec |})
  = false.
Proof.
  apply (calc_period_wraps {| timestamp := 5000000000; total := zero_datarec |}
                           {| timestamp := 7000000000; total := zero_datarec |}).
  - cbn. lia.
  - reflexivity.
Defined.

Lemma percpu_value_is_the_sum_witness :
  result_of (XdpStats.map_get_value_percpu_array 3 2 zero_datarec percpu_world)
  = Ret {| rx_packets := 32; rx_bytes := 3002 |}.
Proof.
  pose proof (percpu_value_is_the_sum 3 2 zero_datarec
                percpu_world percpu_world
                [{| rx_packets := 12; rx_bytes := 1000 |};
                 {| rx_packets := 20; rx_bytes := 2002 |}]) as Hsum.
  cbv zeta in Hsum. rewrite Hsum.
  - vm_compute. reflexivity.
  - vm_compute. discriminate.
  - vm_compute. reflexivity.
Defined.

Lemma unknown_kind_keeps_counters_witness :
  let r := XdpStats.stats_collect (H := defines) 4 1 (replicate 5 seen_record)
                                  steady_world in
  exists snap,
    result_of r = Ret snap /\
    total <$> snap = replicate 5 (total seen_record) /\
    keys_read (trace_of r) = [].
Proof.
  intros r. eexists. split; [vm_compute; reflexivity |].
  destruct (unknown_kind_keeps_counters (H := defines) 4 1 (replicate 5 seen_record)
              (map (fun k => {| timestamp := 5000000000 + 100 * k;
                                total := total seen_record |}) [0; 1; 2; 3; 4])
              steady_world (world_of r) (trace_of r))
    as (Htotals & _ & Hkeys & _).
  - reflexivity.
  - reflexivity.
  - vm_compute. reflexivity.
  - split; [exact Htotals | exact Hkeys].
Defined.

Lemma stats_collect_forgets_records_witness :
  XdpStats.stats_collect (H := defines) 4 BPF_MAP_TYPE_ARRAY
                         (replicate 5 seen_record) steady_world
  = XdpStats.stats_collect (H := defines) 4 BPF_MAP_TYPE_ARRAY
                           (replicate 5 zero_record) steady_world.
Proof.
  apply (stats_collect_forgets_records (H := defines)); reflexivity.
Defined.

Lemma poll_loop_keeps_running_witness :
  exists w' tr l' st',
    XdpStats.poll_run (H := defines) (Kernel0 := SimTwoCpus.kernel)
                      6 "/sys/fs/bpf/veth0" "xdp_stats_map"
                      reporter_expect 2 XdpStats.LoopTop polling_state lossy_world
    = (w', tr, Ret (l', st')).
Proof.
  apply (poll_loop_keeps_running (H := defines) (Kernel0 := SimTwoCpus.kernel)).
  - intros w0. cbn. lia.
  - intros w0. vm_compute. discriminate.
Defined.

Lemma steady_round_witness :
  exists w' tr st',
    XdpStats.poll_run (H := defines) 2 "/sys/fs/bpf/veth0" "xdp_stats_map"
                      reporter_expect 2 XdpStats.LoopTop polling_state quiet_world
    = (w', tr, Ret (XdpStats.LoopTop, st')) /\
    XdpStats.prev st' = XdpStats.record_ polling_state.
Proof.
  pose (r1 := XdpStats.open_check_bpf_map_file (H := defines)
                "/sys/fs/bpf/veth0" "xdp_stats_map" reporter_expect
                (stats_map_info 7) quiet_world).
  pose (r2 := XdpStats.stats_collect (H := defines) 3 BPF_MAP_TYPE_ARRAY
                (replicate 5 seen_record) (world_of r1)).
  destruct (steady_round (H := defines) "/sys/fs/bpf/veth0" "xdp_stats_map"
              reporter_expect 2 polling_state quiet_world
              (world_of r1) (world_of r2) (trace_of r1) (trace_of r2)
              3 (stats_map_info 7)
              (map (fun k => {| timestamp := 5000000000 + 100 * k;
                                total := {| rx_packets := 30 + k;
                                            rx_bytes := 1000 * k |} |})
                   [0; 1; 2; 3; 4]))
    as (rows & _ & Hrun).
  - discriminate.
  - vm_compute. reflexivity.
  - reflexivity.
  - vm_compute. reflexivity.
  - eexists _, _, _. split; [exact Hrun | reflexivity].
Defined.

Lemma refused_reopen_closes_nothing_witness :
  let tr := trace_of (XdpStats.poll_run (H := defines) 2 "/sys/fs/bpf/veth0"
                        "xdp_stats_map" reporter_expect 2 XdpStats.Reopen
                        polling_state reloading_world) in
  calls "close" tr = 0%nat /\ calls "open_bpf_map_file" tr = 2%nat.
Proof.
  apply (refused_reopen_closes_nothing (H := defines)).
  cbn. split.
  - right. split; [lia | discriminate].
  - split; [left; lia | exact I].
Defined.

Lemma startup_returns_on_open_failure_witness :
  result_of (XdpStats.main (H := defines) 3 veth0 dead_world)
  = Ret (XdpStats.Returned 40).
Proof.
  rewrite (startup_returns_on_open_failure (H := defines) 3 veth0
             dead_world dead_world (-1) zero_info).
  - reflexivity.
  - discriminate.
  - discriminate.
  - reflexivity.
  - lia.
Defined.

Lemma startup_returns_on_mismatch_witness :
  result_of (XdpStats.main (H := defines) 3 veth0 reloading_world)
  = Ret (XdpStats.Returned 3).
Proof.
  pose (opened := XdpStats.open_bpf_map_file reloading_world
                    "/sys/fs/bpf/veth0" "xdp_stats_map" zero_info).
  rewrite (startup_returns_on_mismatch (H := defines) 3 veth0
             reloading_world (fst opened) (fst (snd opened)) (snd (snd opened))).
  - reflexivity.
  - discriminate.
  - reflexivity.
  - cbn. lia.
  - cbn. discriminate.
Defined.

Lemma pin_path_of_fitting_name_witness :
  pin_dir_of "veth0" = "/sys/fs/bpf/veth0"
  /\ pin_path_of "veth0" = "/sys/fs/bpf/veth0/xdp_stats_map".
Proof.
  destruct (pin_path_of_fitting_name "veth0") as [Hdir Hpath].
  - cbn. lia.
  - split; [exact Hdir |]. rewrite Hpath, Hdir. reflexivity.
Defined.

Lemma create_failure_stops_the_loader_witness :
  result_of (XdpLoader.main (H := defines) (Kernel0 := SimLoader.kernel)
                            veth0 objectless_host) = Ret 40.
Proof.
  rewrite (create_failure_stops_the_loader (H := defines)
             (Kernel0 := SimLoader.kernel) veth0 objectless_host objectless_host (-2)).
  - reflexivity.
  - discriminate.
  - reflexivity.
  - discriminate.
Defined.

Lemma fatal_reuse_never_attaches_witness :
  let r := XdpLoader.load_bpf_and_xdp_attach_with_reuse
             (H := defines) (Kernel0 := SimLoader.kernel) veth0 stubborn_host in
  result_of r = Ret None /\ calls "xdp_program__attach" (trace_of r) = 0%nat.
Proof.
  intros r. subst r.
  pose (r2 := XdpLoader.reuse_pinned_map (H := defines) (Kernel0 := SimLoader.kernel)
                tt "veth0" stubborn_host).
  rewrite (fatal_reuse_never_attaches (H := defines) (Kernel0 := SimLoader.kernel)
             veth0 stubborn_host stubborn_host (world_of r2) 0 (trace_of r2) (-1)).
  - split; [reflexivity | vm_compute; reflexivity].
  - reflexivity.
  - reflexivity.
  - vm_compute. reflexivity.
  - lia.
Defined.

Lemma attach_failure_pins_nothing_witness :
  let r := XdpLoader.load_bpf_and_xdp_attach_with_reuse
             (H := defines) (Kernel0 := SimLoader.kernel) veth0 busy_host in
  result_of r = Ret None
  /\ calls "bpf_object__pin_maps" (trace_of r) = 0%nat
  /\ calls "bpf_object__unpin_maps" (trace_of r) = 0%nat
  /\ calls "xdp_program__close" (trace_of r) = 1%nat.
Proof.
  intros r. subst r.
  pose (r2 := XdpLoader.reuse_pinned_map (H := defines) (Kernel0 := SimLoader.kernel)
                tt "veth0" busy_host).
  rewrite (attach_failure_pins_nothing (H := defines) (Kernel0 := SimLoader.kernel)
             veth0 busy_host busy_host (world_of r2) busy_host 0 (trace_of r2) 1 (-16)).
  - split; [reflexivity |]. repeat split; vm_compute; reflexivity.
  - reflexivity.
  - reflexivity.
  - vm_compute. reflexivity.
  - lia.
  - reflexivity.
  - discriminate.
Defined.

Lemma reuse_skips_the_pin_step_witness :
  let r := XdpLoader.load_bpf_and_xdp_attach_with_reuse
             (H := defines) (Kernel0 := SimLoader.kernel) veth0 pinned_host in
  result_of r = Ret (Some 0)
  /\ calls "access" (trace_of r) = 1%nat
  /\ calls "bpf_object__unpin_maps" (trace_of r) = 0%nat
  /\ calls "bpf_object__pin_maps" (trace_of r) = 0%nat.
Proof.
  intros r. subst r.
  pose (r2 := XdpLoader.reuse_pinned_map (H := defines) (Kernel0 := SimLoader.kernel)
                tt "veth0" pinned_host).
  rewrite (reuse_skips_the_pin_step (H := defines) (Kernel0 := SimLoader.kernel)
             veth0 pinned_host pinned_host (world_of r2) pinned_host 0 (trace_of r2) 1).
  - split; [reflexivity |]. repeat split; vm_compute; reflexivity.
  - reflexivity.
  - reflexivity.
  - vm_compute. reflexivity.
  - lia.
  - reflexivity.
Defined.

Lemma unpin_failure_stops_the_pin_step_witness :
  let r := XdpLoader.pin_maps_in_bpf_object
             (H := defines) (Kernel0 := SimLoader.kernel) tt "veth0" sticky_host in
  result_of r = Ret 40 /\ calls "bpf_object__pin_maps" (trace_of r) = 0%nat.
Proof.
  intros r. subst r.
  rewrite (unpin_failure_stops_the_pin_step (H := defines) (Kernel0 := SimLoader.kernel)
             tt "veth0" sticky_host sticky_host sticky_host 0 (-1)).
  - split; vm_compute; reflexivity.
  - reflexivity.
  - discriminate.
  - reflexivity.
  - discriminate.
Defined.

Lemma stale_pin_is_replaced_witness :
  let r := XdpLoader.pin_maps_in_bpf_object
             (H := defines) (Kernel0 := SimLoader.kernel) tt "veth0" stale_host in
  result_of r = Ret 0
  /\ calls "bpf_object__unpin_maps" (trace_of r) = 1%nat
  /\ calls "bpf_object__pin_maps" (trace_of r) = 1%nat
  /\ SimLoader.pinned (world_of r) = ["/sys/fs/bpf/veth0/xdp_stats_map"].
Proof.
  intros r. subst r.
  pose (w2 := fst (XdpLoader.bpf_object__unpin_maps stale_host tt (pin_dir_of "veth0"))).
  pose (w3 := fst (XdpLoader.bpf_object__pin_maps w2 tt (pin_dir_of "veth0"))).
  rewrite (stale_pin_is_replaced (H := defines) (Kernel0 := SimLoader.kernel)
             tt "veth0" stale_host stale_host w2 w3 0 0).
  - repeat split; vm_compute; reflexivity.
  - reflexivity.
  - discriminate.
  - reflexivity.
  - reflexivity.
Defined.

Lemma open_check_ok_iff_witness :
  exists t err,
    XdpStats.open_check_bpf_map_file (H := defines) "/sys/fs/bpf/veth0"
      "xdp_stats_map" reporter_expect zero_info reloading_world
    = (SimStats.advance
         {| SimStats.now := 5000000000; SimStats.tick := 100;
            SimStats.opens := [(-1, zero_info)];
            SimStats.table := steady_table; SimStats.cpus := 2;
            SimStats.stack := {| rx_packets := 666; rx_bytes := 777 |} |} 0,
       t, Ret (err, (5, {| type := BPF_MAP_TYPE_ARRAY; id := 9;
                           name := "xdp_stats_map"; key_size := 4;
                           value_size := 16; max_entries := 4 |})))
    /\ err <> EXIT_OK.
Proof.
  destruct (open_check_ok_iff (H := defines) "/sys/fs/bpf/veth0" "xdp_stats_map"
              reporter_expect zero_info
              {| type := BPF_MAP_TYPE_ARRAY; id := 9; name := "xdp_stats_map";
                 key_size := 4; value_size := 16; max_entries := 4 |}
              reloading_world
              (SimStats.advance
                 {| SimStats.now := 5000000000; SimStats.tick := 100;
                    SimStats.opens := [(-1, zero_info)];
                    SimStats.table := steady_table; SimStats.cpus := 2;
                    SimStats.stack := {| rx_packets := 666; rx_bytes := 777 |} |} 0)
              5)
    as (t & err & Hrun & Hiff & _).
  - discriminate.
  - reflexivity.
  - exists t, err. split; [exact Hrun |].
    intros Hok. apply Hiff in Hok as [_ Hshape]. vm_compute in Hshape. discriminate.
Defined.

Lemma percpu_overflows_on_error_witness :
  XdpStats.map_get_value_percpu_array 3 2 zero_datarec cpuless_world
  = (cpuless_world, [], StackOverflow).
Proof.
  apply (percpu_overflows_on_error 3 2 zero_datarec cpuless_world).
  - cbn. lia.
  - cbn. lia.
Defined.

(** C8, as the specification has it, fails: between a snapshot and itself
    no time has elapsed for any outcome, and [stats_print] still writes the
    three lines of the header. *)
Lemma zero_period_still_prints_header :
  ~ zero_period_prints_nothing (H := defines)
      (replicate 5 seen_record) (replicate 5 seen_record) steady_world.
Proof.
  intros Hclaim.
  assert (Hquiet : trace_of (XdpStats.stats_print (H := defines)
                               (replicate 5 seen_record) (replicate 5 seen_record)
                               steady_world) = []).
  { apply Hclaim. intros i _. unfold elapsed. rewrite Z.sub_diag. reflexivity. }
  vm_compute in Hquiet. discriminate.
Qed.
